(** * PREDIX AI engine: prediction generation and risk control

    A shallow embedding of [ai-engine/src/config.py] (the [Config] dataclass
    and its validation) and of [ai-engine/src/prediction_engine.py] (the
    [PredictionEngine] class), followed by the properties of the engine.
    Around the engine, the embedding also covers the methods of
    [ai-engine/src/model_trainer.py] that classify and load the model,
    the methods of [ai-engine/src/blockchain_interface.py] that sign and
    create rounds, the prediction cycle of [ai-engine/main.py] and the
    endpoints of [ai-engine/src/api_server.py] that drive the engine.

    Conventions of the embedding:
    - Python [int] is [Z]; Python [float] is the binary64 type [float] of
      the kernel, compared with [PrimFloat.ltb] and [PrimFloat.leb];
    - [str] and [bytes] are [string];
    - a method of [PredictionEngine] is a computation in the monad [M]:
      it reads and writes the engine's attributes, may raise, and records
      every call it makes to a collaborator;
    - the collaborators (data collector, model trainer, blockchain
      interface), the clock and the random generator answer through a
      record of responses, [collaborators];
    - [hashlib.sha256] and Python's [repr] are library code: they are the
      fields of the class [PyRuntime]. *)

From Stdlib Require Import ZArith Floats.
From stdpp Require Import gmap strings list pretty.

#[local] Set Warnings "-inexact-float".
#[local] Open Scope Z_scope.

(** ** Exceptions and results *)

Inductive exception : Type :=
| ValueError (msg : string)
| TypeError (msg : string)
| ZeroDivisionError (msg : string)
| OverflowError (msg : string)
| Exception (msg : string).

Inductive result (A : Type) : Type :=
| Return (a : A)
| Raise (e : exception).

Arguments Return {A} a.
Arguments Raise {A} e.

Definition is_raise {A : Type} (r : result A) : bool :=
  match r with
  | Return _ => false
  | Raise _ => true
  end.

(** ** Python numbers *)

(** An [int] as an unrounded binary float, the operand of a true division. *)
Definition int_to_sf (z : Z) : spec_float :=
  match z with
  | Z0 => S754_zero false
  | Zpos p => S754_finite false p 0
  | Zneg p => S754_finite true p 0
  end.

(** [a / b] on two [int]s: the quotient rounded once to the nearest
    binary64; [ZeroDivisionError] on a zero divisor and [OverflowError]
    when the quotient is beyond the largest float. *)
Definition truediv (a b : Z) : result float :=
  if b =? 0 then Raise (ZeroDivisionError "division by zero")
  else
    match SFdiv prec emax (int_to_sf a) (int_to_sf b) with
    | S754_infinity _ =>
        Raise (OverflowError "integer division result too large for a float")
    | q => Return (SF2Prim q)
    end.

(** [x < y], [x > y] and [x >= y] on floats; each is false on a NaN. *)
Definition float_lt (x y : float) : bool := PrimFloat.ltb x y.
Definition float_gt (x y : float) : bool := PrimFloat.ltb y x.
Definition float_ge (x y : float) : bool := PrimFloat.leb y x.

(** ** config.py *)

(** The options that [validate_config] and the prediction engine read.
    The other attributes of the dataclass (contract addresses, API keys,
    database URLs, training and logging options) take no part in either. *)
Record Config : Type := {
  WEB3_PROVIDER_URL : string;
  PRIVATE_KEY : string;
  SEQUENCE_LENGTH : Z;
  PREDICTION_HORIZON : Z;
  FEATURE_COUNT : Z;
  BATCH_SIZE : Z;
  CONFIDENCE_THRESHOLD : float;
  MAX_CONSECUTIVE_LOSSES : Z;
  EMERGENCY_STOP_THRESHOLD : float
}.

(** [Config.validate_config]: the first failing check raises. *)
Definition validate_config (self : Config) : result unit :=
  if String.eqb (PRIVATE_KEY self) ""
  then Raise (ValueError "PRIVATE_KEY is required")
  else if String.eqb (WEB3_PROVIDER_URL self) ""
  then Raise (ValueError "WEB3_PROVIDER_URL is required")
  else if float_lt (CONFIDENCE_THRESHOLD self) 0.5
          || float_gt (CONFIDENCE_THRESHOLD self) 1.0
  then Raise (ValueError "CONFIDENCE_THRESHOLD must be between 0.5 and 1.0")
  else if SEQUENCE_LENGTH self <? 10
  then Raise (ValueError "SEQUENCE_LENGTH must be at least 10")
  else if BATCH_SIZE self <? 1
  then Raise (ValueError "BATCH_SIZE must be positive")
  else Return tt.




(** ** Data of prediction_engine.py *)

(** The values stored in the dictionaries the engine builds and reads. *)
Inductive pyvalue : Type :=
| PyInt (z : Z)
| PyFloat (x : float)
| PyBool (b : bool)
| PyStr (s : string).

(** A [numpy.ndarray], by what the engine reads of it: its [shape] and
    its raw bytes. *)
Record ndarray : Type := {
  shape : list Z;
  tobytes : string
}.

(** A [datetime], by its ISO-8601 rendering. *)
Record datetime : Type := {
  isoformat : string
}.

(** The dataclass [PredictionResult]. It declares no [round_id] field:
    [round_id] is the attribute that [update_prediction_result] looks for
    with [hasattr], present only on an instance to which the host of the
    engine has attached one. *)
Record PredictionResult : Type := {
  direction : Z;
  confidence : float;
  timestamp : datetime;
  features_hash : string;
  signature_hash : string;
  model_version : string;
  metadata : gmap string pyvalue;
  round_id : option Z
}.

Definition set_metadata (v : gmap string pyvalue) (r : PredictionResult)
  : PredictionResult :=
  {| direction := direction r;
     confidence := confidence r;
     timestamp := timestamp r;
     features_hash := features_hash r;
     signature_hash := signature_hash r;
     model_version := model_version r;
     metadata := v;
     round_id := round_id r |}.

(** The dictionary [prediction_data] of [_create_prediction_result]; its
    five keys are always inserted in this order. *)
Record prediction_data : Type := {
  pd_direction : Z;
  pd_confidence : float;
  pd_timestamp : string;
  pd_features_hash : string;
  pd_model_version : string
}.

(** The mutable attributes of a [PredictionEngine]. *)
Record PredictionEngine : Type := {
  consecutive_losses : Z;
  total_predictions : Z;
  correct_predictions : Z;
  prediction_history : list PredictionResult;
  emergency_stop : bool;
  last_prediction_time : option datetime
}.

(** The attributes as [__init__] sets them. *)
Definition PredictionEngine_init : PredictionEngine :=
  {| consecutive_losses := 0;
     total_predictions := 0;
     correct_predictions := 0;
     prediction_history := [];
     emergency_stop := false;
     last_prediction_time := None |}.

Definition set_consecutive_losses (v : Z) (self : PredictionEngine) : PredictionEngine :=
  {| consecutive_losses := v;
     total_predictions := total_predictions self;
     correct_predictions := correct_predictions self;
     prediction_history := prediction_history self;
     emergency_stop := emergency_stop self;
     last_prediction_time := last_prediction_time self |}.

Definition set_total_predictions (v : Z) (self : PredictionEngine) : PredictionEngine :=
  {| consecutive_losses := consecutive_losses self;
     total_predictions := v;
     correct_predictions := correct_predictions self;
     prediction_history := prediction_history self;
     emergency_stop := emergency_stop self;
     last_prediction_time := last_prediction_time self |}.

Definition set_correct_predictions (v : Z) (self : PredictionEngine) : PredictionEngine :=
  {| consecutive_losses := consecutive_losses self;
     total_predictions := total_predictions self;
     correct_predictions := v;
     prediction_history := prediction_history self;
     emergency_stop := emergency_stop self;
     last_prediction_time := last_prediction_time self |}.

Definition set_prediction_history (v : list PredictionResult) (self : PredictionEngine)
  : PredictionEngine :=
  {| consecutive_losses := consecutive_losses self;
     total_predictions := total_predictions self;
     correct_predictions := correct_predictions self;
     prediction_history := v;
     emergency_stop := emergency_stop self;
     last_prediction_time := last_prediction_time self |}.

Definition set_emergency_stop (v : bool) (self : PredictionEngine) : PredictionEngine :=
  {| consecutive_losses := consecutive_losses self;
     total_predictions := total_predictions self;
     correct_predictions := correct_predictions self;
     prediction_history := prediction_history self;
     emergency_stop := v;
     last_prediction_time := last_prediction_time self |}.

Definition set_last_prediction_time (v : option datetime) (self : PredictionEngine)
  : PredictionEngine :=
  {| consecutive_losses := consecutive_losses self;
     total_predictions := total_predictions self;
     correct_predictions := correct_predictions self;
     prediction_history := prediction_history self;
     emergency_stop := emergency_stop self;
     last_prediction_time := v |}.

(** ** Collaborators *)

(** A call of the engine to one of its collaborators. *)
Inductive call : Type :=
| get_latest_features_call
| predict_call (features : ndarray)
| sign_message_call (message : string)
| get_model_info_call
| load_model_call.

(** What the world outside the engine answers during one operation:
    - [get_latest_features]: [DataCollector.get_latest_features()], an
      array or [None];
    - [predict]: [ModelTrainer.predict(features)], a direction and a
      confidence;
    - [sign_message]: [BlockchainInterface.sign_message(message)];
    - [get_model_info]: [ModelTrainer.get_model_info()];
    - [load_model]: [ModelTrainer.load_model()];
    - [datetime_now n]: the value of the [n]-th [datetime.now()] of the
      operation, counted from 0;
    - [random_bytes shape]: the bytes of the array that
      [np.random.random(shape)] draws for a shape without a negative
      dimension, or the exception it raises when it cannot make an array
      of that shape ([ValueError] for an array that is too big,
      [MemoryError]). *)
Record collaborators : Type := {
  get_latest_features : result (option ndarray);
  predict : ndarray -> result (Z * float);
  sign_message : string -> result string;
  get_model_info : result (gmap string pyvalue);
  load_model : result bool;
  datetime_now : nat -> datetime;
  random_bytes : list Z -> result string
}.

(** Library code the engine calls: the hexadecimal SHA-256 digest of a
    byte string, and [repr] on a float and on a string. *)
Class PyRuntime : Type := {
  sha256_hexdigest : string -> string;
  repr_float : float -> string;
  repr_str : string -> string
}.

(** ** The monad of engine methods *)

(** A method runs from the attributes of [self]; it returns or raises,
    leaves new attributes, and leaves the list of the collaborator calls
    it made, in order. Attributes written before an exception stay
    written. *)
Definition M (A : Type) : Type :=
  PredictionEngine -> result A * PredictionEngine * list call.

Definition ret {A : Type} (a : A) : M A :=
  fun self => (Return a, self, []).

Definition raise {A : Type} (e : exception) : M A :=
  fun self => (Raise e, self, []).

Definition bind {A B : Type} (m : M A) (k : A -> M B) : M B :=
  fun self =>
    match m self with
    | (Return a, self1, calls1) =>
        match k a self1 with
        | (r, self2, calls2) => (r, self2, calls1 ++ calls2)
        end
    | (Raise e, self1, calls1) => (Raise e, self1, calls1)
    end.

(** [try: body except Exception as e: handler e]. *)
Definition try_except {A : Type} (body : M A) (handler : exception -> M A) : M A :=
  fun self =>
    match body self with
    | (Return a, self1, calls1) => (Return a, self1, calls1)
    | (Raise e, self1, calls1) =>
        match handler e self1 with
        | (r, self2, calls2) => (r, self2, calls1 ++ calls2)
        end
    end.

(** Reading an attribute of [self], and writing one. *)
Definition gets {A : Type} (f : PredictionEngine -> A) : M A :=
  fun self => (Return (f self), self, []).

Definition modify (f : PredictionEngine -> PredictionEngine) : M unit :=
  fun self => (Return tt, f self, []).

(** A call to a collaborator: recorded, then its answer. *)
Definition invoke {A : Type} (c : call) (answer : result A) : M A :=
  fun self => (answer, self, [c]).

(** A library computation that may raise. *)
Definition lift {A : Type} (r : result A) : M A :=
  fun self => (r, self, []).

Declare Scope engine_scope.
Delimit Scope engine_scope with engine.
Notation "'let*' x ':=' m 'in' k" := (bind m (fun x => k))
  (at level 10, x pattern, m at level 100, k at level 200) : engine_scope.
Notation "m ';;' k" := (bind m (fun _ => k))
  (at level 100, k at level 200, right associativity) : engine_scope.

#[local] Open Scope engine_scope.

(** ** Library helpers *)

(** [str] of an [int]. *)
Definition str_int (z : Z) : string := pretty z.

(** [l[-n:]]: the last [n] elements of [l], all of [l] when it has fewer. *)
Definition slice_last {A : Type} (n : nat) (l : list A) : list A :=
  drop (length l - n)%nat l.

(** [np.random.random(shape)]: refuses a negative dimension; otherwise
    the generator answers, with an array of that shape or with the
    exception of an array that cannot be made. *)
Definition np_random_random (env : collaborators) (dims : list Z) : result ndarray :=
  if existsb (fun d => d <? 0) dims
  then Raise (ValueError "negative dimensions are not allowed")
  else
    match random_bytes env dims with
    | Return bytes => Return {| shape := dims; tobytes := bytes |}
    | Raise e => Raise e
    end.

(** [len(features)]: the first dimension; a 0-dimensional array has none. *)
Definition ndarray_len (features : ndarray) : result Z :=
  match shape features with
  | [] => Raise (TypeError "len() of unsized object")
  | n :: _ => Return n
  end.

Section Engine.

Context `{PyRuntime}.

(** The f-string rendering [f"{v}"] of a dictionary value. *)
Definition format_value (v : pyvalue) : string :=
  match v with
  | PyInt z => str_int z
  | PyFloat x => repr_float x
  | PyBool true => "True"
  | PyBool false => "False"
  | PyStr s => s
  end.

(** [str(prediction_data)]: the dictionary display, each value by [repr]. *)
Definition str_prediction_data (d : prediction_data) : string :=
  "{'direction': " +:+ str_int (pd_direction d) +:+
  ", 'confidence': " +:+ repr_float (pd_confidence d) +:+
  ", 'timestamp': " +:+ repr_str (pd_timestamp d) +:+
  ", 'features_hash': " +:+ repr_str (pd_features_hash d) +:+
  ", 'model_version': " +:+ repr_str (pd_model_version d) +:+ "}".

(** The message that [_create_signature_hash] hands to the signer:
    [f"{direction}{timestamp}{features_hash}"]. *)
Definition signing_message (d : prediction_data) : string :=
  str_int (pd_direction d) +:+ pd_timestamp d +:+ pd_features_hash d.

(** ** prediction_engine.py *)

Variable config : Config.
Variable env : collaborators.

(** [_get_model_version]. *)
Definition _get_model_version : M string :=
  try_except
    (let* model_info := invoke get_model_info_call (get_model_info env) in
     ret ("v1.0_" +:+ format_value (default (PyInt 0) (model_info !! "parameters"))))
    (fun _ => ret "v1.0_unknown").

(** [_calculate_accuracy]. *)
Definition _calculate_accuracy : M float :=
  let* total := gets total_predictions in
  if total =? 0 then ret 0%float
  else
    let* correct := gets correct_predictions in
    lift (truediv correct total).

(** [_create_signature_hash]. *)
Definition _create_signature_hash (d : prediction_data) : M string :=
  try_except
    (let message := signing_message d in
     let* signature := invoke (sign_message_call message) (sign_message env message) in
     ret (sha256_hexdigest signature))
    (fun _ =>
       let message := str_prediction_data d in
       ret (sha256_hexdigest message)).

(** [_create_prediction_result]. *)
Definition _create_prediction_result
    (direction : Z) (confidence : float) (features : ndarray) : M PredictionResult :=
  let timestamp := datetime_now env 0 in
  let features_hash := sha256_hexdigest (tobytes features) in
  let* version := _get_model_version in
  let d := {| pd_direction := direction;
              pd_confidence := confidence;
              pd_timestamp := isoformat timestamp;
              pd_features_hash := features_hash;
              pd_model_version := version |} in
  let* signature_hash := _create_signature_hash d in
  let* total := gets total_predictions in
  let* losses := gets consecutive_losses in
  let* accuracy := _calculate_accuracy in
  let* feature_count :=
    lift (if (1 <? length (shape features))%nat
          then Return (List.last (shape features) 0)
          else ndarray_len features) in
  let metadata : gmap string pyvalue :=
    <["feature_count" := PyInt feature_count]>
      (<["accuracy" := PyFloat accuracy]>
         (<["consecutive_losses" := PyInt losses]>
            (<["total_predictions" := PyInt total]> ∅))) in
  ret {| direction := direction;
         confidence := confidence;
         timestamp := timestamp;
         features_hash := features_hash;
         signature_hash := signature_hash;
         model_version := pd_model_version d;
         metadata := metadata;
         round_id := None |}.

(** [generate_prediction]. *)
Definition generate_prediction : M (option PredictionResult) :=
  try_except
    (let* stopped := gets emergency_stop in
     if stopped then ret None
     else
       let* features := invoke get_latest_features_call (get_latest_features env) in
       match features with
       | None => ret None
       | Some features =>
           let* (direction, confidence) :=
             invoke (predict_call features) (predict env features) in
           if float_lt confidence (CONFIDENCE_THRESHOLD config) then ret None
           else
             let* prediction_result :=
               _create_prediction_result direction confidence features in
             modify (fun self =>
               set_total_predictions (total_predictions self + 1) self) ;;
             modify (set_last_prediction_time (Some (datetime_now env 1))) ;;
             modify (fun self =>
               set_prediction_history
                 (prediction_history self ++ [prediction_result]) self) ;;
             let* history := gets prediction_history in
             (if (100 <? length history)%nat
              then modify (set_prediction_history (slice_last 100 history))
              else ret tt) ;;
             ret (Some prediction_result)
       end)
    (fun _ => ret None).

(** [_check_emergency_conditions]. *)
Definition _check_emergency_conditions : M unit :=
  try_except
    (let* losses := gets consecutive_losses in
     if MAX_CONSECUTIVE_LOSSES config <=? losses
     then modify (set_emergency_stop true)
     else
       let* accuracy := _calculate_accuracy in
       let* total := gets total_predictions in
       if (10 <=? total) && float_lt accuracy (EMERGENCY_STOP_THRESHOLD config)
       then modify (set_emergency_stop true)
       else
         let* stopped := gets emergency_stop in
         let* losses := gets consecutive_losses in
         if stopped && (losses =? 0)
            && float_ge accuracy (CONFIDENCE_THRESHOLD config)
         then modify (set_emergency_stop false)
         else ret tt)
    (fun _ => ret tt).

(** The search loop of [update_prediction_result]: the first prediction
    of the history that has a [round_id] attribute equal to [rid]. *)
Definition find_prediction (history : list PredictionResult) (rid : Z)
  : option PredictionResult :=
  List.find
    (fun pred =>
       match round_id pred with
       | Some r => r =? rid
       | None => false
       end)
    history.

(** [update_prediction_result]. *)
Definition update_prediction_result (rid : Z) (actual_outcome : Z) : M unit :=
  try_except
    (let* history := gets prediction_history in
     match find_prediction history rid with
     | None => ret tt
     | Some prediction =>
         let was_correct := direction prediction =? actual_outcome in
         (if was_correct
          then
            modify (fun self =>
              set_correct_predictions (correct_predictions self + 1) self) ;;
            modify (set_consecutive_losses 0)
          else
            modify (fun self =>
              set_consecutive_losses (consecutive_losses self + 1) self)) ;;
         _check_emergency_conditions
     end)
    (fun _ => ret tt).

(** [update_model]. *)
Definition update_model : M unit :=
  try_except
    (let* loaded := invoke load_model_call (load_model env) in
     if loaded
     then
       modify (set_consecutive_losses 0) ;;
       modify (set_emergency_stop false)
     else ret tt)
    (fun _ => ret tt).

(** [manual_override]; the caller of the default passes
    [confidence = 0.9]. *)
Definition manual_override (direction : Z) (confidence : float)
  : M (option PredictionResult) :=
  try_except
    (let* dummy_features :=
       lift (np_random_random env [SEQUENCE_LENGTH config; FEATURE_COUNT config]) in
     let* prediction_result :=
       _create_prediction_result direction confidence dummy_features in
     let prediction_result :=
       set_metadata
         (<["manual_override" := PyBool true]> (metadata prediction_result))
         prediction_result in
     ret (Some prediction_result))
    (fun _ => ret None).

(** [reset_emergency_stop]. *)
Definition reset_emergency_stop : M unit :=
  modify (set_emergency_stop false) ;;
  modify (set_consecutive_losses 0).

End Engine.

(** ** Runs *)

(** The three components of the outcome of a method. *)
Definition returned {A : Type} (x : result A * PredictionEngine * list call) : result A :=
  x.1.1.
Definition state_after {A : Type} (x : result A * PredictionEngine * list call)
  : PredictionEngine :=
  x.1.2.
Definition calls_of {A : Type} (x : result A * PredictionEngine * list call) : list call :=
  x.2.

(** The public operations of the engine, each with the answers of the
    world during it. *)
Inductive operation : Type :=
| op_generate_prediction (env : collaborators)
| op_update_prediction_result (rid : Z) (actual_outcome : Z)
| op_manual_override (env : collaborators) (direction : Z) (confidence : float)
| op_reset_emergency_stop
| op_update_model (env : collaborators).

Section Runs.

Context `{PyRuntime}.
Variable config : Config.

Definition step (self : PredictionEngine) (o : operation) : PredictionEngine :=
  match o with
  | op_generate_prediction env => state_after (generate_prediction config env self)
  | op_update_prediction_result rid actual_outcome =>
      state_after (update_prediction_result config rid actual_outcome self)
  | op_manual_override env direction confidence =>
      state_after (manual_override config env direction confidence self)
  | op_reset_emergency_stop => state_after (reset_emergency_stop self)
  | op_update_model env => state_after (update_model env self)
  end.

(** The engine after a sequence of operations. *)
Definition run (ops : list operation) (self : PredictionEngine) : PredictionEngine :=
  fold_left step ops self.

(** The engine after one [generate_prediction] per element of [envs]. *)
Definition generate_many (envs : list collaborators) (self : PredictionEngine)
  : PredictionEngine :=
  fold_left (fun self env => state_after (generate_prediction config env self)) envs self.

(** The engine after the outcome updates [(round_id, actual_outcome)]. *)
Definition update_many (updates : list (Z * Z)) (self : PredictionEngine)
  : PredictionEngine :=
  fold_left
    (fun self u => state_after (update_prediction_result config u.1 u.2 self))
    updates self.

End Runs.

(** ** Vocabulary of the properties *)

(** Whether the update [(round_id, actual_outcome)] finds a prediction in
    [history], and whether the prediction it finds was wrong. *)
Definition matched (history : list PredictionResult) (u : Z * Z) : bool :=
  match find_prediction history u.1 with
  | Some _ => true
  | None => false
  end.

Definition incorrect (history : list PredictionResult) (u : Z * Z) : bool :=
  match find_prediction history u.1 with
  | Some prediction => negb (direction prediction =? u.2)
  | None => false
  end.

(** The length of the run of [true] at the head of a list, and at its end. *)
Fixpoint leading_run (l : list bool) : Z :=
  match l with
  | true :: l' => 1 + leading_run l'
  | _ => 0
  end.

Definition trailing_run (l : list bool) : Z := leading_run (rev l).

(** The running accuracy of an engine, when it is computable. *)
Definition running_accuracy (self : PredictionEngine) : result float :=
  returned (_calculate_accuracy self).

(** The two conditions that stop the engine and the one that releases it. *)
Definition losses_limit_reached (config : Config) (self : PredictionEngine) : bool :=
  MAX_CONSECUTIVE_LOSSES config <=? consecutive_losses self.

Definition accuracy_too_low (config : Config) (self : PredictionEngine) : bool :=
  (10 <=? total_predictions self)
  && match running_accuracy self with
     | Return accuracy => float_lt accuracy (EMERGENCY_STOP_THRESHOLD config)
     | Raise _ => false
     end.

Definition conditions_improved (config : Config) (self : PredictionEngine) : bool :=
  (consecutive_losses self =? 0)
  && match running_accuracy self with
     | Return accuracy => float_ge accuracy (CONFIDENCE_THRESHOLD config)
     | Raise _ => false
     end.

(** The keys of the metadata that [_create_prediction_result] builds. *)
Definition metadata_keys : gset string :=
  {[ "total_predictions"; "consecutive_losses"; "accuracy"; "feature_count" ]}.

(** What [generate_prediction] writes when it records [r]. *)
Definition record_prediction (now : datetime) (r : PredictionResult)
    (self : PredictionEngine) : PredictionEngine :=
  let history := prediction_history self ++ [r] in
  {| consecutive_losses := consecutive_losses self;
     total_predictions := total_predictions self + 1;
     correct_predictions := correct_predictions self;
     prediction_history :=
       if (100 <? length history)%nat then slice_last 100 history else history;
     emergency_stop := emergency_stop self;
     last_prediction_time := Some now |}.

(** No prediction of the history carries a [round_id]. *)
Definition untagged (history : list PredictionResult) : Prop :=
  Forall (fun r => round_id r = None) history.

(** What [update_prediction_result] writes to the counters for the
    prediction it found, before it re-evaluates the emergency stop. *)
Definition count_outcome (prediction : PredictionResult) (actual_outcome : Z)
    (self : PredictionEngine) : PredictionEngine :=
  if direction prediction =? actual_outcome
  then set_consecutive_losses 0
         (set_correct_predictions (correct_predictions self + 1) self)
  else set_consecutive_losses (consecutive_losses self + 1) self.

(** The stop flag that the re-evaluation leaves: raised by either
    stopping condition, otherwise kept unless the conditions improved. *)
Definition emergency_stop_after (config : Config) (self : PredictionEngine) : bool :=
  losses_limit_reached config self
  || accuracy_too_low config self
  || (emergency_stop self && negb (conditions_improved config self)).

(** The invariant that the public operations keep: the count of correct
    predictions is within the total, and no recorded prediction carries
    a [round_id]. *)
Definition well_counted (self : PredictionEngine) : Prop :=
  0 <= correct_predictions self <= total_predictions self
  /\ untagged (prediction_history self).

(** Whether the operation [o] is an outcome update that finds its
    prediction in the history of [self] and agrees with its direction. *)
Definition credited (self : PredictionEngine) (o : operation) : bool :=
  match o with
  | op_update_prediction_result rid actual_outcome =>
      match find_prediction (prediction_history self) rid with
      | Some prediction => direction prediction =? actual_outcome
      | None => false
      end
  | _ => false
  end.

Section Attestation.

Context `{PyRuntime}.
Variable env : collaborators.

(** The version tag that [_get_model_version] returns in [env]. *)
Definition model_version_of : string :=
  match get_model_info env with
  | Return model_info =>
      "v1.0_" +:+ format_value (default (PyInt 0) (model_info !! "parameters"))
  | Raise _ => "v1.0_unknown"
  end.

(** The dictionary that [_create_prediction_result] hands to
    [_create_signature_hash] in [env]. *)
Definition prediction_data_of (direction : Z) (confidence : float) (features : ndarray)
  : prediction_data :=
  {| pd_direction := direction;
     pd_confidence := confidence;
     pd_timestamp := isoformat (datetime_now env 0);
     pd_features_hash := sha256_hexdigest (tobytes features);
     pd_model_version := model_version_of |}.

End Attestation.

(** ** Sample inputs *)

(** A stand-in for the library: the digest of [s] is displayed as
    [sha256(s)], so that what was hashed stays readable. *)
Definition sample_runtime : PyRuntime :=
  {| sha256_hexdigest := fun s => "sha256(" +:+ s +:+ ")";
     repr_float := fun x => if PrimFloat.eqb x 0.9 then "0.9" else "float";
     repr_str := fun s => "'" +:+ s +:+ "'" |}.

(** The defaults of config.py, with a private key. *)
Definition sample_config : Config :=
  {| WEB3_PROVIDER_URL := "https://rpc-amoy.polygon.technology/";
     PRIVATE_KEY := "0xkey";
     SEQUENCE_LENGTH := 60;
     PREDICTION_HORIZON := 10;
     FEATURE_COUNT := 20;
     BATCH_SIZE := 32;
     CONFIDENCE_THRESHOLD := 0.6;
     MAX_CONSECUTIVE_LOSSES := 3;
     EMERGENCY_STOP_THRESHOLD := 0.3 |}.

(** A configuration that differs from [sample_config] in its two risk
    options only: no consecutive loss allowed, and an accuracy floor
    above 1. *)
Definition unchecked_config : Config :=
  {| WEB3_PROVIDER_URL := "https://rpc-amoy.polygon.technology/";
     PRIVATE_KEY := "0xkey";
     SEQUENCE_LENGTH := 60;
     PREDICTION_HORIZON := 10;
     FEATURE_COUNT := 20;
     BATCH_SIZE := 32;
     CONFIDENCE_THRESHOLD := 0.6;
     MAX_CONSECUTIVE_LOSSES := 0;
     EMERGENCY_STOP_THRESHOLD := 1.5 |}.

Definition sample_features : ndarray :=
  {| shape := [60; 28]; tobytes := "features" |}.

(** A world whose classifier answers DOWN with [confidence] and whose
    signer answers by [sign]. *)
Definition sample_env (confidence : float) (sign : string -> result string)
  : collaborators :=
  {| get_latest_features := Return (Some sample_features);
     predict := fun _ => Return (1, confidence);
     sign_message := sign;
     get_model_info :=
       Return (<["parameters" := PyInt 1234]> (<["status" := PyStr "trained"]> ∅));
     load_model := Return true;
     datetime_now := fun n => {| isoformat := "2024-01-01T00:00:0" +:+ pretty n |};
     random_bytes := fun _ => Return "random" |}.

Definition signer_up (message : string) : result string :=
  Return ("signed:" +:+ message).

Definition signer_down (message : string) : result string :=
  Raise (Exception "signer unavailable").

(** A recorded prediction of direction UP to which the host has attached
    round 7. *)
Definition tagged_prediction : PredictionResult :=
  {| direction := 0;
     confidence := 0.9;
     timestamp := {| isoformat := "2024-01-01T00:00:00" |};
     features_hash := "sha256(features)";
     signature_hash := "sha256(signed)";
     model_version := "v1.0_1234";
     metadata := ∅;
     round_id := Some 7 |}.

(** An engine stopped after three losses on ten predictions. *)
Definition halted_engine : PredictionEngine :=
  {| consecutive_losses := 3;
     total_predictions := 10;
     correct_predictions := 7;
     prediction_history := [tagged_prediction];
     emergency_stop := true;
     last_prediction_time := None |}.

(** An engine that made one prediction, for round 7. *)
Definition one_prediction_engine : PredictionEngine :=
  {| consecutive_losses := 0;
     total_predictions := 1;
     correct_predictions := 0;
     prediction_history := [tagged_prediction];
     emergency_stop := false;
     last_prediction_time := None |}.

(** An engine that lost its last two of three predictions. *)
Definition two_losses_engine : PredictionEngine :=
  {| consecutive_losses := 2;
     total_predictions := 3;
     correct_predictions := 1;
     prediction_history := [tagged_prediction];
     emergency_stop := false;
     last_prediction_time := None |}.

(** An engine whose history is full. *)
Definition full_engine : PredictionEngine :=
  {| consecutive_losses := 0;
     total_predictions := 100;
     correct_predictions := 0;
     prediction_history := replicate 100 tagged_prediction;
     emergency_stop := false;
     last_prediction_time := None |}.

(** ** Reporting methods of the engine *)

(** [l[start:]]: a negative [start] counts from the end, and either way
    the index is clamped to the bounds of the list. *)
Definition slice_from {A : Type} (start : Z) (l : list A) : list A :=
  let len := Z.of_nat (length l) in
  let start := if start <? 0 then Z.max (start + len) 0 else Z.min start len in
  drop (Z.to_nat start) l.

(** The dictionary that [get_prediction_stats] returns, by its seven
    keys; [last_prediction_time] is the ISO-8601 text or [None]. *)
Record prediction_stats : Type := {
  stats_total_predictions : Z;
  stats_correct_predictions : Z;
  stats_accuracy : float;
  stats_consecutive_losses : Z;
  stats_emergency_stop : bool;
  stats_last_prediction_time : option string;
  stats_model_version : string
}.

(** One dictionary of the list that [get_recent_predictions] returns, by
    its five keys. *)
Record prediction_display : Type := {
  display_direction : string;
  display_confidence : float;
  display_timestamp : string;
  display_signature_hash : string;
  display_metadata : gmap string pyvalue
}.

(** The entry that [get_recent_predictions] builds for [pred]. *)
Definition display_of (pred : PredictionResult) : prediction_display :=
  {| display_direction := if direction pred =? 0 then "UP" else "DOWN";
     display_confidence := confidence pred;
     display_timestamp := isoformat (timestamp pred);
     display_signature_hash := String.substring 0 16 (signature_hash pred) +:+ "...";
     display_metadata := metadata pred |}.

(** What the three collaborators answer to a health probe. *)
Record health_probes : Type := {
  model_trainer_health_check : result bool;
  data_collector_health_check : result bool;
  blockchain_interface_health_check : result bool
}.

Inductive health_call : Type :=
| model_trainer_health_call
| data_collector_health_call
| blockchain_interface_health_call.

Section Reporting.

Context `{PyRuntime}.
Variable env : collaborators.

(** [get_prediction_stats]: the dictionary display evaluates its values
    in order, the accuracy before the model version. Nothing here
    catches an exception. *)
Definition get_prediction_stats : M prediction_stats :=
  let* total := gets total_predictions in
  let* correct := gets correct_predictions in
  let* accuracy := _calculate_accuracy in
  let* losses := gets consecutive_losses in
  let* stopped := gets emergency_stop in
  let* last := gets last_prediction_time in
  let* version := _get_model_version env in
  ret {| stats_total_predictions := total;
         stats_correct_predictions := correct;
         stats_accuracy := accuracy;
         stats_consecutive_losses := losses;
         stats_emergency_stop := stopped;
         stats_last_prediction_time := option_map isoformat last;
         stats_model_version := version |}.

(** [get_recent_predictions]; the caller of the default passes
    [limit = 10]. *)
Definition get_recent_predictions (limit : Z) : M (list prediction_display) :=
  let* history := gets prediction_history in
  ret (map display_of (slice_from (- limit) history)).

(** [health_check]: the three collaborators are probed in turn, then the
    stop flag is read; the first failure answers [False], and so does an
    exception. The result comes with the probes made, in order. *)
Definition health_check (probes : health_probes) (self : PredictionEngine)
  : bool * list health_call :=
  match model_trainer_health_check probes with
  | Return true =>
      match data_collector_health_check probes with
      | Return true =>
          match blockchain_interface_health_check probes with
          | Return true =>
              (negb (emergency_stop self),
               [model_trainer_health_call; data_collector_health_call;
                blockchain_interface_health_call])
          | _ =>
              (false,
               [model_trainer_health_call; data_collector_health_call;
                blockchain_interface_health_call])
          end
      | _ => (false, [model_trainer_health_call; data_collector_health_call])
      end
  | _ => (false, [model_trainer_health_call])
  end.

End Reporting.

(** ** Vocabulary, continued *)

(** What holds of an engine on which no outcome was ever counted. *)
Definition never_scored (self : PredictionEngine) : Prop :=
  emergency_stop self = false
  /\ consecutive_losses self = 0
  /\ correct_predictions self = 0
  /\ untagged (prediction_history self).

(** The history holds the last 100 of the predictions counted, and the
    time of the last prediction is set once one was counted. *)
Definition history_in_step (self : PredictionEngine) : Prop :=
  0 <= total_predictions self
  /\ Z.of_nat (length (prediction_history self)) = Z.min (total_predictions self) 100
  /\ (last_prediction_time self = None <-> total_predictions self = 0).

(** An engine with a history of two. *)
Definition up_prediction : PredictionResult :=
  {| direction := 0;
     confidence := 0.75;
     timestamp := {| isoformat := "2024-01-01T00:10:00" |};
     features_hash := "sha256(features)";
     signature_hash := "0123456789abcdef0123456789abcdef";
     model_version := "v1.0_1234";
     metadata := ∅;
     round_id := None |}.

Definition down_prediction : PredictionResult :=
  {| direction := 1;
     confidence := 0.8;
     timestamp := {| isoformat := "2024-01-01T00:20:00" |};
     features_hash := "sha256(features)";
     signature_hash := "fedcba98";
     model_version := "v1.0_1234";
     metadata := ∅;
     round_id := None |}.

Definition two_predictions_engine : PredictionEngine :=
  {| consecutive_losses := 0;
     total_predictions := 2;
     correct_predictions := 0;
     prediction_history := [up_prediction; down_prediction];
     emergency_stop := false;
     last_prediction_time := Some {| isoformat := "2024-01-01T00:20:00" |} |}.

(** What [ModelTrainer.get_model_info] returns before any training. *)
Definition untrained_model_info : gmap string pyvalue :=
  {[ "status" := PyStr "not_trained" ]}.

(** A world in which nothing works: no features, no trained model, no
    model file, no signer. *)
Definition offline_env : collaborators :=
  {| get_latest_features := Return None;
     predict := fun _ => Raise (ValueError "Model not trained");
     sign_message := signer_down;
     get_model_info := Return untrained_model_info;
     load_model := Return false;
     datetime_now := fun n => {| isoformat := "2024-01-01T00:00:0" +:+ pretty n |};
     random_bytes := fun _ => Return "random" |}.

(** The configuration [config] with another [FEATURE_COUNT]. *)
Definition with_FEATURE_COUNT (count : Z) (config : Config) : Config :=
  {| WEB3_PROVIDER_URL := WEB3_PROVIDER_URL config;
     PRIVATE_KEY := PRIVATE_KEY config;
     SEQUENCE_LENGTH := SEQUENCE_LENGTH config;
     PREDICTION_HORIZON := PREDICTION_HORIZON config;
     FEATURE_COUNT := count;
     BATCH_SIZE := BATCH_SIZE config;
     CONFIDENCE_THRESHOLD := CONFIDENCE_THRESHOLD config;
     MAX_CONSECUTIVE_LOSSES := MAX_CONSECUTIVE_LOSSES config;
     EMERGENCY_STOP_THRESHOLD := EMERGENCY_STOP_THRESHOLD config |}.

(** The defaults of config.py with a private key and a negative
    [FEATURE_COUNT]. *)
Definition negative_features_config : Config :=
  {| WEB3_PROVIDER_URL := "https://rpc-amoy.polygon.technology/";
     PRIVATE_KEY := "0xkey";
     SEQUENCE_LENGTH := 60;
     PREDICTION_HORIZON := 10;
     FEATURE_COUNT := -1;
     BATCH_SIZE := 32;
     CONFIDENCE_THRESHOLD := 0.6;
     MAX_CONSECUTIVE_LOSSES := 3;
     EMERGENCY_STOP_THRESHOLD := 0.3 |}.

(** ** Computations that may raise *)

(** Sequencing of library computations, outside the engine: the first
    exception ends the computation. *)
Definition and_then {A B : Type} (r : result A) (k : A -> result B) : result B :=
  match r with
  | Return a => k a
  | Raise e => Raise e
  end.

Declare Scope result_scope.
Delimit Scope result_scope with result.
Notation "'let+' x ':=' r 'in' k" := (and_then r (fun x => k))
  (at level 10, x pattern, r at level 100, k at level 200) : result_scope.

(** [l[i]] on a list, a tuple or the first axis of an array: a negative
    index counts from the end, and an index out of range raises
    [IndexError] (carried as [Exception], with its class in the text). *)
Definition getitem {A : Type} (l : list A) (i : Z) : result A :=
  let len := Z.of_nat (length l) in
  let i := if i <? 0 then i + len else i in
  match (if i <? 0 then None else l !! Z.to_nat i) with
  | Some a => Return a
  | None => Raise (Exception "IndexError: index out of range")
  end.

(** [l[start:stop]]: both indices count from the end when negative and
    are clamped to the bounds; no element when [stop] is not after
    [start]. *)
Definition slice {A : Type} (start stop : Z) (l : list A) : list A :=
  let len := Z.of_nat (length l) in
  let clamp i := if i <? 0 then Z.max (i + len) 0 else Z.min i len in
  take (Z.to_nat (clamp stop - clamp start)) (drop (Z.to_nat (clamp start)) l).

(** [range(start, stop)]. *)
Definition range (start stop : Z) : list Z := seqZ start (stop - start).

(** ** model_trainer.py *)

(** The fitted [StandardScaler] and the compiled network of a trainer,
    by the library calls that [ModelTrainer] makes on them:
    [scaler_transform] is [transform], [keras_predict] is
    [predict(x, verbose=0)], whose output is an array of rows of
    32-bit floats, here each with its exact binary64 value. *)
Record StandardScaler : Type := {
  scaler_transform : ndarray -> result ndarray
}.

Record Sequential : Type := {
  keras_predict : ndarray -> result (list (list float))
}.

(** [numpy]'s [reshape], library code: [reshape a [d1; ...; dn]] is
    [a.reshape(d1, ..., dn)]. *)
Class Numpy : Type := {
  reshape : ndarray -> list Z -> result ndarray
}.

(** The attributes of a [ModelTrainer] that its methods read and write
    after construction. *)
Record ModelTrainer : Type := {
  model : option Sequential;
  feature_scaler : option StandardScaler;
  is_trained : bool
}.

(** The attributes as [__init__] sets them. *)
Definition ModelTrainer_init : ModelTrainer :=
  {| model := None; feature_scaler := None; is_trained := false |}.

(** What the file system and the two loaders answer during
    [load_model]: for each of the two paths, [None] when
    [os.path.exists] is false, otherwise what loading the file gives. *)
Record model_files : Type := {
  model_file : option (result Sequential);
  scaler_file : option (result StandardScaler)
}.

Section Trainer.

Context `{Numpy}.
Variable config : Config.

#[local] Open Scope result_scope.

(** [ModelTrainer._create_sequences], up to the two conversions to
    arrays: the lists [X] and [y] that the loop builds. [features] is
    the array by its rows. *)
Definition _create_sequences {A B : Type} (features : list A) (targets : list B)
  : result (list (list A) * list B) :=
  foldl
    (fun acc i =>
       let+ (X, y) := acc in
       let window := slice (i - SEQUENCE_LENGTH config) i features in
       let+ target := getitem targets i in
       Return (X ++ [window], y ++ [target]))
    (Return ([], []))
    (range (SEQUENCE_LENGTH config) (Z.of_nat (length features))).

(** [ModelTrainer.predict]. Its handler logs and raises again, so the
    exception of the body is the exception of the method. *)
Definition ModelTrainer_predict (self : ModelTrainer) (features : ndarray)
  : result (Z * float) :=
  match is_trained self, model self with
  | true, Some network =>
      match feature_scaler self with
      | None => Raise (ValueError "Feature scaler not available")
      | Some scaler =>
          let+ features :=
            if (length (shape features) =? 2)%nat
            then
              let+ rows := getitem (shape features) 0 in
              let+ columns := getitem (shape features) 1 in
              reshape features [1; rows; columns]
            else Return features in
          let+ columns := getitem (shape features) (-1) in
          let+ flat := reshape features [-1; columns] in
          let+ scaled := scaler_transform scaler flat in
          let+ scaled_features := reshape scaled (shape features) in
          let+ output := keras_predict network scaled_features in
          let+ row := getitem output 0 in
          let+ prediction_prob := getitem row 0 in
          let prediction_class := Z.b2z (float_gt prediction_prob 0.5) in
          Return (prediction_class, prediction_prob)
      end
  | _, _ => Raise (ValueError "Model not trained")
  end.

(** [ModelTrainer.load_model]: the answer and the trainer it leaves.
    An exception of either loader ends the method with [False]; what was
    assigned before stays assigned. *)
Definition ModelTrainer_load_model (files : model_files) (self : ModelTrainer)
  : bool * ModelTrainer :=
  match model_file files with
  | None => (false, self)
  | Some (Raise _) => (false, self)
  | Some (Return network) =>
      let self :=
        {| model := Some network;
           feature_scaler := feature_scaler self;
           is_trained := true |} in
      match scaler_file files with
      | None => (true, self)
      | Some (Raise _) => (false, self)
      | Some (Return scaler) =>
          (true,
           {| model := model self;
              feature_scaler := Some scaler;
              is_trained := is_trained self |})
      end
  end.

(** [ModelTrainer.health_check]; [env] draws the placeholder input. *)
Definition ModelTrainer_health_check (env : collaborators) (self : ModelTrainer) : bool :=
  match is_trained self, model self with
  | true, Some network =>
      match
        (let+ dummy_input :=
           np_random_random env [1; SEQUENCE_LENGTH config; FEATURE_COUNT config] in
         keras_predict network dummy_input)
      with
      | Return _ => true
      | Raise _ => false
      end
  | _, _ => false
  end.

(** [PredictionEngine.initialize]. *)
Definition initialize (model_trainer : ModelTrainer) : result unit :=
  if negb (is_trained model_trainer)
  then Raise (ValueError "Model must be trained before initializing prediction engine")
  else Return tt.

End Trainer.

(** The targets of [ModelTrainer.prepare_data], from the column [close]:
    [future_close] is [close.shift(-PREDICTION_HORIZON)], which is NaN
    where the shifted row does not exist; [price_direction] is
    [(future_close > close).astype(int)]; the rows kept are those where
    [price_direction.notna()]. *)
Definition future_close (config : Config) (close : list float) : list float :=
  imap
    (fun i _ =>
       let j := Z.of_nat i + PREDICTION_HORIZON config in
       if j <? 0 then PrimFloat.nan else default PrimFloat.nan (close !! Z.to_nat j))
    close.

Definition price_direction (config : Config) (close : list float) : list Z :=
  zip_with (fun future now => Z.b2z (float_gt future now)) (future_close config close) close.

(** An [int64] is never missing. *)
Definition notna (x : Z) : bool := true.

Definition prepare_targets (config : Config) (close : list float) : list Z :=
  filter (fun direction => notna direction = true) (price_direction config close).

(** ** Sample trainers *)

(** A library whose [reshape] only relabels the array. *)
Definition sample_numpy : Numpy :=
  {| reshape := fun a dims => Return {| shape := dims; tobytes := tobytes a |} |}.

Definition sample_scaler : StandardScaler :=
  {| scaler_transform := fun a => Return a |}.

(** A network that answers the probability [p] to every input. *)
Definition constant_network (p : float) : Sequential :=
  {| keras_predict := fun _ => Return [[p]] |}.

Definition trained_trainer (p : float) : ModelTrainer :=
  {| model := Some (constant_network p);
     feature_scaler := Some sample_scaler;
     is_trained := true |}.

(** The model file is there, the file of the scaler is not. *)
Definition files_without_scaler : model_files :=
  {| model_file := Some (Return (constant_network 0.9));
     scaler_file := None |}.

(** A world whose classifier is the trainer [trainer]. *)
Definition trainer_env `{Numpy} (trainer : ModelTrainer) : collaborators :=
  {| get_latest_features := Return (Some sample_features);
     predict := ModelTrainer_predict trainer;
     sign_message := signer_up;
     get_model_info := Return untrained_model_info;
     load_model := Return false;
     datetime_now := fun n => {| isoformat := "2024-01-01T00:00:0" +:+ pretty n |};
     random_bytes := fun _ => Return "random" |}.

(** A configuration with windows of three rows and a horizon of two. *)
Definition short_config : Config :=
  {| WEB3_PROVIDER_URL := "https://rpc-amoy.polygon.technology/";
     PRIVATE_KEY := "0xkey";
     SEQUENCE_LENGTH := 3;
     PREDICTION_HORIZON := 2;
     FEATURE_COUNT := 20;
     BATCH_SIZE := 32;
     CONFIDENCE_THRESHOLD := 0.6;
     MAX_CONSECUTIVE_LOSSES := 3;
     EMERGENCY_STOP_THRESHOLD := 0.3 |}.

(** ** blockchain_interface.py *)

(** The attributes of [Config] that name the chain and the contracts;
    they complete the record [Config] above. *)
Record ChainConfig : Type := {
  CHAIN_ID : Z;
  ROUND_MANAGER_ADDRESS : string;
  PREDICTION_POOL_ADDRESS : string;
  ORACLE_HANDLER_ADDRESS : string;
  AI_ORACLE_ADAPTER_ADDRESS : string
}.

(** A call to a function of a contract, with its arguments. *)
Inductive contract_call : Type :=
| submitPrediction (roundId : Z) (direction : Z) (signatureHash : list Byte.byte)
| createRound (aiPrediction : Z) (aiSignatureHash : list Byte.byte).

(** What the node, the key and the clock answer to a
    [BlockchainInterface]:
    - [eth_contract address]: [w3.eth.contract(address=address, abi=...)];
    - [transact call nonce]: the function object of [call] is created,
      its transaction is built with [nonce], signed, sent and waited
      for; the answer is the status of the receipt and the hexadecimal
      hash of the transaction;
    - [sign_defunct message]: the hexadecimal signature of
      [encode_defunct(text=message)] by the private key;
    - [is_connected], [get_block_latest] (whether the latest block is
      truthy) and [get_balance] (the balance of the account in ether, as
      a float);
    - [timestamp_now]: [int(datetime.now().timestamp())]. *)
Record web3 : Type := {
  eth_contract : string -> result unit;
  transact : contract_call -> Z -> result (Z * string);
  sign_defunct : string -> result string;
  is_connected : result bool;
  get_block_latest : result bool;
  get_balance : result float;
  timestamp_now : Z
}.

(** Library code on strings and bytes: [bytes.fromhex]. *)
Class PyBytes : Type := {
  bytes_fromhex : string -> result (list Byte.byte)
}.

(** The attributes of a [BlockchainInterface] that its methods read and
    write: the keys of [contracts] and the nonce. *)
Record BlockchainInterface : Type := {
  contracts : gset string;
  nonce : Z
}.

(** The attributes as [__init__] sets them. *)
Definition BlockchainInterface_init : BlockchainInterface :=
  {| contracts := ∅; nonce := 0 |}.

(** [s.replace('0x', '')]: the occurrences are removed from left to
    right, without overlap. *)
Fixpoint remove_0x (s : string) : string :=
  match s with
  | String c (String d rest as tail) =>
      if String.eqb (String c (String d "")) "0x" then remove_0x rest
      else String c (remove_0x tail)
  | _ => s
  end.

(** [b.ljust(width, b'\x00')]. *)
Definition ljust (width : nat) (b : list Byte.byte) : list Byte.byte :=
  b ++ replicate (width - length b) Byte.x00.

Section Blockchain.

Context `{PyBytes}.
Variable chain : ChainConfig.
Variable w3 : web3.

(** [_load_contracts]: an exception of [w3.eth.contract] ends the
    method; the contracts stored before it stay. *)
Definition _load_contracts (self : BlockchainInterface) : BlockchainInterface :=
  let with_contract key self :=
    {| contracts := {[ key ]} ∪ contracts self; nonce := nonce self |} in
  match
    (if String.eqb (ROUND_MANAGER_ADDRESS chain) ""
     then Return self
     else and_then (eth_contract w3 (ROUND_MANAGER_ADDRESS chain))
            (fun _ => Return (with_contract "round_manager" self)))
  with
  | Raise _ => self
  | Return self =>
      if String.eqb (AI_ORACLE_ADAPTER_ADDRESS chain) "" then self
      else
        match eth_contract w3 (AI_ORACLE_ADAPTER_ADDRESS chain) with
        | Raise _ => self
        | Return _ => with_contract "ai_oracle" self
        end
  end.

(** [_send_transaction]: the hash of a confirmed transaction, or [None];
    with what it leaves of [self] and the call it made, under the nonce
    it used. *)
Definition _send_transaction (call : contract_call) (self : BlockchainInterface)
  : option string * BlockchainInterface * list (contract_call * Z) :=
  match transact w3 call (nonce self) with
  | Return (status, tx_hash) =>
      if status =? 1
      then (Some tx_hash,
            {| contracts := contracts self; nonce := nonce self + 1 |},
            [(call, nonce self)])
      else (None, self, [(call, nonce self)])
  | Raise _ => (None, self, [(call, nonce self)])
  end.

(** [_submit_prediction]: without the contract, [self.contracts['ai_oracle']]
    raises and the handler logs it. *)
Definition _submit_prediction
    (round_id direction : Z) (signature_hash : list Byte.byte)
    (self : BlockchainInterface)
  : BlockchainInterface * list (contract_call * Z) :=
  if decide ("ai_oracle" ∈ contracts self)
  then
    match _send_transaction (submitPrediction round_id direction signature_hash) self with
    | (_, self, calls) => (self, calls)
    end
  else (self, []).

(** [create_round]. *)
Definition create_round (prediction_direction : Z) (signature_hash : string)
    (self : BlockchainInterface)
  : option Z * BlockchainInterface * list (contract_call * Z) :=
  if decide ("ai_oracle" ∈ contracts self)
  then
    match bytes_fromhex (remove_0x signature_hash) with
    | Raise _ => (None, self, [])
    | Return signature_bytes =>
        let signature_bytes :=
          if (length signature_bytes =? 32)%nat then signature_bytes
          else ljust 32 (take 32 signature_bytes) in
        let round_id := timestamp_now w3 mod 1000000 in
        match _submit_prediction round_id prediction_direction signature_bytes self with
        | (self, calls) =>
            if decide ("round_manager" ∈ contracts self)
            then
              match
                _send_transaction (createRound prediction_direction signature_bytes) self
              with
              | (Some tx_hash, self, calls') =>
                  if String.eqb tx_hash "" then (None, self, calls ++ calls')
                  else (Some round_id, self, calls ++ calls')
              | (None, self, calls') => (None, self, calls ++ calls')
              end
            else (None, self, calls)
        end
    end
  else (None, self, []).

(** [sign_message]: an exception of the signer is answered by the empty
    string. *)
Definition BlockchainInterface_sign_message (message : string) : result string :=
  match sign_defunct w3 message with
  | Return signature => Return signature
  | Raise _ => Return ""
  end.

(** [get_account_balance]. *)
Definition get_account_balance : float :=
  match get_balance w3 with
  | Return balance => balance
  | Raise _ => 0%float
  end.

(** [BlockchainInterface.health_check]. *)
Definition BlockchainInterface_health_check : bool :=
  match is_connected w3 with
  | Return true =>
      match get_block_latest w3 with
      | Return true => negb (float_lt get_account_balance 0.01)
      | _ => false
      end
  | _ => false
  end.

End Blockchain.

(** ** Vocabulary of the properties of the chain *)

(** The 32 bytes that stand for [decoded] in a contract call: its first
    32 bytes, followed by zero bytes when it has fewer. *)
Definition bytes32 (decoded : list Byte.byte) : list Byte.byte :=
  take 32 (decoded ++ replicate 32 Byte.x00).

(** Whether the node confirms a call under the nonce it was made with. *)
Definition confirmed (w3 : web3) (request : contract_call * Z) : bool :=
  match transact w3 request.1 request.2 with
  | Return (status, _) => status =? 1
  | Raise _ => false
  end.

(** ** Sample chains *)

(** A library that decodes nothing but the empty string and one short
    digest. *)
Definition sample_bytes : PyBytes :=
  {| bytes_fromhex := fun s =>
       if String.eqb s "" then Return []
       else if String.eqb s "abcd" then Return [Byte.xab; Byte.xcd]
       else Raise (ValueError "non-hexadecimal number found in fromhex() arg") |}.

(** A node that confirms the creation of rounds and reverts the
    submission of predictions; the key does not sign. *)
Definition sample_web3 : web3 :=
  {| eth_contract := fun _ => Return tt;
     transact := fun call _ =>
       match call with
       | submitPrediction _ _ _ => Return (0, "0xreverted")
       | createRound _ _ => Return (1, "0xconfirmed")
       end;
     sign_defunct := fun _ => Raise (Exception "no key");
     is_connected := Return true;
     get_block_latest := Return true;
     get_balance := Raise (Exception "no account");
     timestamp_now := 1704067200 |}.

Definition both_contracts : BlockchainInterface :=
  {| contracts := {[ "round_manager"; "ai_oracle" ]}; nonce := 5 |}.

(** A world whose signer is [BlockchainInterface.sign_message] on [w3]. *)
Definition chain_env (w3 : web3) : collaborators :=
  {| get_latest_features := Return (Some sample_features);
     predict := fun _ => Return (1, 0.9%float);
     sign_message := BlockchainInterface_sign_message w3;
     get_model_info := Return untrained_model_info;
     load_model := Return false;
     datetime_now := fun n => {| isoformat := "2024-01-01T00:00:0" +:+ pretty n |};
     random_bytes := fun _ => Return "random" |}.

(** ** main.py *)

(** The two components of a [PredixAI] that a prediction cycle reads and
    writes. *)
Record PredixAI : Type := {
  prediction_engine : PredictionEngine;
  blockchain_interface : BlockchainInterface
}.

(** [obj[key]] on a [PredictionResult]: the data class defines no
    [__getitem__], so the subscript raises whatever the key. *)
Definition subscript {A : Type} (obj : PredictionResult) (key : string) : result A :=
  Raise (TypeError "'PredictionResult' object is not subscriptable").

Section Application.

Context `{PyRuntime} `{PyBytes}.
Variable config : Config.
Variable env : collaborators.
Variable w3 : web3.

#[local] Open Scope result_scope.

(** [PredixAI.run_prediction_cycle]: what it leaves of the application,
    with the calls of the engine and the calls to the contracts. An
    instance of the data class is truthy; the arguments of
    [create_round] are evaluated before the call; the handler logs the
    exception. *)
Definition run_prediction_cycle (self : PredixAI)
  : PredixAI * list call * list (contract_call * Z) :=
  match generate_prediction config env (prediction_engine self) with
  | (Return (Some prediction_result), engine, calls) =>
      match
        (let+ direction := subscript prediction_result "direction" in
         let+ signature_hash := subscript prediction_result "signature_hash" in
         Return (create_round w3 direction signature_hash (blockchain_interface self)))
      with
      | Return (_, chain, requests) =>
          ({| prediction_engine := engine; blockchain_interface := chain |},
           calls, requests)
      | Raise _ =>
          ({| prediction_engine := engine;
              blockchain_interface := blockchain_interface self |},
           calls, [])
      end
  | (_, engine, calls) =>
      ({| prediction_engine := engine;
          blockchain_interface := blockchain_interface self |},
       calls, [])
  end.

End Application.

(** ** api_server.py *)

(** What the function of an endpoint hands to the framework: the content
    it returns, or the [HTTPException] it raises. *)
Inductive response (A : Type) : Type :=
| OK (content : A)
| HTTPException (status_code : Z) (detail : string).

Arguments OK {A} content.
Arguments HTTPException {A} status_code detail.

(** Library code the server calls: [str] on an [HTTPException] with its
    status code and detail, and [str.upper]. *)
Class ApiRuntime : Type := {
  str_HTTPException : Z -> string -> string;
  str_upper : string -> string
}.

(** [str(e)] on an exception built from its message. *)
Definition str_exception (e : exception) : string :=
  match e with
  | ValueError msg | TypeError msg | ZeroDivisionError msg
  | OverflowError msg | Exception msg => msg
  end.

(** The body of [ManualPredictionRequest]. *)
Record ManualPredictionRequest : Type := {
  request_direction : string;
  request_confidence : float
}.

Section Api.

Context `{PyRuntime} `{ApiRuntime}.
Variable config : Config.
Variable API_SECRET_KEY : string.
Variable env : collaborators.

(** The handler that every endpoint puts around its body,
    [except Exception as e: raise HTTPException(status_code=500, detail=str(e))].
    An [HTTPException] is an [Exception]: the one that the body raised
    is caught as well. *)
Definition except_500 {A : Type} (body : M (response A)) : M (response A) :=
  fun self =>
    match body self with
    | (Return (OK content), self, calls) => (Return (OK content), self, calls)
    | (Return (HTTPException status_code detail), self, calls) =>
        (Return (HTTPException 500 (str_HTTPException status_code detail)), self, calls)
    | (Raise e, self, calls) =>
        (Return (HTTPException 500 (str_exception e)), self, calls)
    end.

(** The dependency [verify_token], resolved before the endpoint runs:
    its exception is the answer. [credentials] is the bearer token that
    the request carries. *)
Definition verify_token {A : Type} (credentials : string) (endpoint : M (response A))
  : M (response A) :=
  if negb (String.eqb credentials API_SECRET_KEY)
  then ret (HTTPException 401 "Invalid token")
  else endpoint.

(** [GET /predictions/latest]. *)
Definition api_get_latest_prediction : M (response prediction_display) :=
  except_500
    (let* predictions := get_recent_predictions 1 in
     match predictions with
     | [] => ret (HTTPException 404 "No predictions available")
     | _ =>
         let* latest := lift (getitem predictions 0) in
         ret (OK latest)
     end).

(** [POST /predictions/generate]. *)
Definition api_generate_prediction (credentials : string) : M (response prediction_display) :=
  verify_token credentials
    (except_500
       (let* prediction := generate_prediction config env in
        match prediction with
        | None => ret (HTTPException 400 "Failed to generate prediction")
        | Some prediction =>
            ret (OK {| display_direction :=
                         if direction prediction =? 0 then "UP" else "DOWN";
                       display_confidence := confidence prediction;
                       display_timestamp := isoformat (timestamp prediction);
                       display_signature_hash := signature_hash prediction;
                       display_metadata := metadata prediction |})
        end)).

(** [POST /predictions/manual]. *)
Definition api_manual_prediction (request : ManualPredictionRequest) (credentials : string)
  : M (response prediction_display) :=
  verify_token credentials
    (except_500
       (let direction :=
          if String.eqb (str_upper (request_direction request)) "UP" then 0 else 1 in
        let* prediction :=
          manual_override config env direction (request_confidence request) in
        match prediction with
        | None => ret (HTTPException 400 "Failed to create manual prediction")
        | Some prediction =>
            ret (OK {| display_direction := str_upper (request_direction request);
                       display_confidence := confidence prediction;
                       display_timestamp := isoformat (timestamp prediction);
                       display_signature_hash := signature_hash prediction;
                       display_metadata := metadata prediction |})
        end)).

(** [POST /emergency/stop]. *)
Definition api_emergency_stop (credentials : string) : M (response string) :=
  verify_token credentials
    (except_500
       (modify (set_emergency_stop true) ;;
        ret (OK "Emergency stop activated"))).

(** [POST /emergency/reset]. *)
Definition api_reset_emergency_stop (credentials : string) : M (response string) :=
  verify_token credentials
    (except_500
       (reset_emergency_stop ;;
        ret (OK "Emergency stop reset"))).

End Api.

(** ** Sample server *)

(** [str.upper] on ASCII text: each small letter becomes its capital and
    every other character stays. *)
Fixpoint ascii_upper (s : string) : string :=
  match s with
  | EmptyString => EmptyString
  | String c rest =>
      let code := Ascii.nat_of_ascii c in
      String
        (if (97 <=? code)%nat && (code <=? 122)%nat
         then Ascii.ascii_of_nat (code - 32)
         else c)
        (ascii_upper rest)
  end.

(** A library that displays an [HTTPException] as [status: detail] and
    whose [str.upper] is that of ASCII text. *)
Definition sample_api_runtime : ApiRuntime :=
  {| str_HTTPException := fun status_code detail => pretty status_code +:+ ": " +:+ detail;
     str_upper := ascii_upper |}.

(** * Properties *)

(** Case analysis along the branches of a method: every test and every
    result that decides how the method continues is split. *)
Ltac split_test b :=
  lazymatch b with
  | andb ?x _ => split_test x
  | orb ?x _ => split_test x
  | negb ?x => split_test x
  | _ => destruct b eqn:?
  end.

Ltac case_split :=
  repeat (cbn -[float_lt float_gt float_ge truediv];
          match goal with
          | |- context [if ?b then _ else _] => split_test b
          | |- context [match ?r with Return _ => _ | Raise _ => _ end] =>
              destruct r eqn:?
          end).


(** ** True division of the counters *)

(** The quotient of two counters [0 <= a <= b] is at most 1: its
    rounding stays finite, so the division does not raise. The proof
    follows the rounding of [SFdiv]: the exponent it ends with is far
    below the largest one. *)

Lemma Zdigits2_log2 (p : positive) : Zdigits2 (Z.pos p) = Z.log2 (Z.pos p) + 1.
Proof.
  cbn [Zdigits2].
  assert (Hsize : forall q, digits2_pos q = Pos.size q)
    by (induction q; cbn; congruence).
  rewrite Hsize. destruct p; cbn; lia.
Qed.

Lemma Zdigits2_bound (x k : Z) : 0 <= x < 2 ^ k -> 0 <= k -> Zdigits2 x <= k.
Proof.
  intros [Hnonneg Hlt] Hk.
  destruct x as [| p | p]; [exact Hk | | lia].
  rewrite Zdigits2_log2.
  assert (Z.log2 (Z.pos p) < k) by (apply Z.log2_lt_pow2; lia).
  lia.
Qed.

Lemma shr_1_bounds (r : shr_record) :
  0 <= shr_m r -> 0 <= shr_m (shr_1 r) <= shr_m r.
Proof.
  destruct r as [m rb sb]. cbn.
  destruct m as [| [p | p |] | p]; cbn; lia.
Qed.

Lemma iter_shr_1_bounds (p : positive) (r : shr_record) :
  0 <= shr_m r -> 0 <= shr_m (SpecFloat.iter_pos shr_1 p r) <= shr_m r.
Proof.
  revert r. induction p as [p IH | p IH |]; intros r Hr; cbn.
  - pose proof (shr_1_bounds r Hr) as H1.
    pose proof (IH _ (proj1 H1)) as H2.
    pose proof (IH _ (proj1 H2)) as H3. lia.
  - pose proof (IH _ Hr) as H2.
    pose proof (IH _ (proj1 H2)) as H3. lia.
  - apply shr_1_bounds, Hr.
Qed.

Lemma shr_fexp_bounds (m e k : Z) (l : location) :
  0 <= m -> Zdigits2 m + e <= k ->
  0 <= shr_m (shr_fexp prec emax m e l).1 <= m
  /\ (shr_fexp prec emax m e l).2 <= Z.max (Z.max (k - 53) (-1074)) e.
Proof.
  intros Hm Hk. unfold shr_fexp, shr.
  assert (Hrec : shr_m (shr_record_of_loc m l) = m)
    by (destruct l as [| []]; reflexivity).
  unfold fexp, emin, prec, emax in *.
  destruct (Z.max (Zdigits2 m + e - 53) (3 - 1024 - 53) - e) as [| p | p] eqn:Hn;
    cbn [fst snd].
  - rewrite Hrec. lia.
  - pose proof (iter_shr_1_bounds p (shr_record_of_loc m l)) as Hiter.
    rewrite Hrec in Hiter. split; [apply Hiter, Hm | lia].
  - rewrite Hrec. lia.
Qed.

Lemma round_nearest_even_bounds (m : Z) (l : location) :
  m <= round_nearest_even m l <= m + 1.
Proof.
  unfold round_nearest_even.
  destruct l as [| []]; try lia. destruct (Z.even m); lia.
Qed.

Lemma binary_round_aux_finite (sx : bool) (q s : Z) (l : location) :
  0 <= q <= 2 ^ s -> 53 <= s <= 1074 ->
  forall sign, binary_round_aux prec emax sx q (- s) l <> S754_infinity sign.
Proof.
  intros Hq Hs sign. unfold binary_round_aux.
  assert (Hdigits : Zdigits2 q + - s <= 1).
  { assert (Zdigits2 q <= s + 1); [| lia].
    apply Zdigits2_bound; [| lia].
    rewrite Z.pow_add_r by lia. lia. }
  pose proof (shr_fexp_bounds q (- s) 1 l (proj1 Hq) Hdigits) as [Hm1 He1].
  destruct (shr_fexp prec emax q (- s) l) as [mrs1 e1]. cbn [fst snd] in Hm1, He1.
  pose proof (round_nearest_even_bounds (shr_m mrs1) (loc_of_shr_record mrs1)) as Hround.
  set (m1 := round_nearest_even (shr_m mrs1) (loc_of_shr_record mrs1)) in *.
  assert (Hdigits1 : Zdigits2 m1 + e1 <= 1023).
  { assert (Zdigits2 m1 <= s + 1); [| lia].
    apply Zdigits2_bound; [| lia].
    rewrite Z.pow_add_r by lia.
    assert (1 < 2 ^ s) by (apply Z.pow_gt_1; lia). lia. }
  pose proof (shr_fexp_bounds m1 e1 1023 loc_Exact ltac:(lia) Hdigits1) as [Hm2 He2].
  destruct (shr_fexp prec emax m1 e1 loc_Exact) as [mrs2 e2]. cbn [fst snd] in Hm2, He2.
  destruct (shr_m mrs2); try discriminate.
  unfold emax, prec.
  destruct (Z.leb_spec e2 (1024 - 53)); [discriminate | lia].
Qed.

Lemma SFdiv_finite (a b : positive) :
  (a <= b)%positive ->
  forall sign,
    SFdiv prec emax (S754_finite false a 0) (S754_finite false b 0) <> S754_infinity sign.
Proof.
  intros Hle sign. unfold SFdiv, SFdiv_core_binary.
  assert (Hd : Zdigits2 (Z.pos a) <= Zdigits2 (Z.pos b)).
  { rewrite !Zdigits2_log2.
    assert (Z.log2 (Z.pos a) <= Z.log2 (Z.pos b)) by (apply Z.log2_le_mono; lia).
    lia. }
  assert (Hd1 : 1 <= Zdigits2 (Z.pos a)).
  { rewrite Zdigits2_log2. pose proof (Z.log2_nonneg (Z.pos a)). lia. }
  set (e := Z.min (fexp prec emax
                     (Zdigits2 (Z.pos a) + 0 - (Zdigits2 (Z.pos b) + 0))) (0 - 0)).
  assert (He : -1074 <= e <= -53) by (unfold e, fexp, emin, prec, emax; lia).
  destruct (0 - 0 - e) as [| s | s] eqn:Hs; try lia.
  destruct (Z.div_eucl (Z.shiftl (Z.pos a) (Z.pos s)) (Z.pos b)) as [q r] eqn:Hdiv.
  replace e with (- Z.pos s) by lia.
  apply binary_round_aux_finite; [| lia].
  assert (Hq : q = Z.shiftl (Z.pos a) (Z.pos s) / Z.pos b)
    by (unfold Z.div; rewrite Hdiv; reflexivity).
  rewrite Hq, Z.shiftl_mul_pow2 by lia.
  assert (0 < 2 ^ Z.pos s) by (apply Z.pow_pos_nonneg; lia).
  split.
  - apply Z.div_pos; lia.
  - apply Z.div_le_upper_bound; [lia |]. nia.
Qed.

Lemma truediv_within_unit (a b : Z) :
  0 <= a <= b -> b <> 0 -> exists q, truediv a b = Return q.
Proof.
  intros Hab Hb. unfold truediv.
  destruct (Z.eqb_spec b 0) as [| _]; [contradiction |].
  destruct a as [| a | a], b as [| b | b]; try lia; cbn [int_to_sf].
  - eexists. reflexivity.
  - pose proof (SFdiv_finite a b ltac:(lia)) as Hfinite.
    destruct (SFdiv prec emax (S754_finite false a 0) (S754_finite false b 0));
      try (eexists; reflexivity).
    exfalso. eapply Hfinite. reflexivity.
Qed.

(** ** The emergency stop short-circuits prediction *)

(** C1: in every engine state in which [emergency_stop] is true,
    [generate_prediction] returns [None], leaves the engine as it was and
    makes no call at all: neither the feature provider
    ([get_latest_features]) nor the classifier ([predict]) is invoked. *)
Theorem generate_prediction_halted `{PyRuntime}
    (config : Config) (env : collaborators) (self : PredictionEngine) :
  emergency_stop self = true ->
  generate_prediction config env self = (Return None, self, []).
Proof.
  intros Hstop.
  unfold generate_prediction, try_except, bind, gets.
  rewrite Hstop. reflexivity.
Qed.

Lemma generate_prediction_halted_witness :
  emergency_stop halted_engine = true
  /\ @generate_prediction sample_runtime sample_config (sample_env 0.9 signer_up)
       halted_engine
     = (Return None, halted_engine, []).
Proof.
  split; [reflexivity |].
  apply (@generate_prediction_halted sample_runtime). reflexivity.
Defined.

(** ** Predictions below the confidence threshold are dropped *)

(** C6: when the classifier answers with a confidence strictly below
    [CONFIDENCE_THRESHOLD], [generate_prediction] returns [None] and the
    engine is unchanged (history, the three counters, the stop flag and
    the time of the last prediction); the only calls made are the fetch
    of the features and the prediction, so nothing is signed. *)
Theorem generate_prediction_below_threshold `{PyRuntime}
    (config : Config) (env : collaborators) (self : PredictionEngine)
    (features : ndarray) (direction : Z) (confidence : float) :
  emergency_stop self = false ->
  get_latest_features env = Return (Some features) ->
  predict env features = Return (direction, confidence) ->
  float_lt confidence (CONFIDENCE_THRESHOLD config) = true ->
  generate_prediction config env self
  = (Return None, self, [get_latest_features_call; predict_call features]).
Proof.
  intros Hstop Hfeatures Hpredict Hlow.
  unfold generate_prediction, try_except, bind, gets, invoke.
  rewrite Hstop, Hfeatures, Hpredict, Hlow. reflexivity.
Qed.

Lemma generate_prediction_below_threshold_witness :
  @generate_prediction sample_runtime sample_config (sample_env 0.55 signer_up)
    PredictionEngine_init
  = (Return None, PredictionEngine_init,
     [get_latest_features_call; predict_call sample_features]).
Proof.
  apply (@generate_prediction_below_threshold sample_runtime
           sample_config (sample_env 0.55 signer_up) PredictionEngine_init
           sample_features 1 0.55);
    reflexivity.
Defined.

(** ** Reloading the model *)

(** C10: when [load_model] succeeds, [update_model] sets
    [consecutive_losses] to 0 and [emergency_stop] to false and leaves
    [total_predictions], [correct_predictions] and [prediction_history]
    as they were: a stopped engine is released and a streak of losses is
    erased, whatever the outcomes were. *)
Theorem update_model_reloaded (env : collaborators) (self : PredictionEngine) :
  load_model env = Return true ->
  let self' := state_after (update_model env self) in
  consecutive_losses self' = 0
  /\ emergency_stop self' = false
  /\ total_predictions self' = total_predictions self
  /\ correct_predictions self' = correct_predictions self
  /\ prediction_history self' = prediction_history self
  /\ last_prediction_time self' = last_prediction_time self
  /\ returned (update_model env self) = Return tt
  /\ calls_of (update_model env self) = [load_model_call].
Proof.
  intros Hload.
  unfold update_model, try_except, bind, invoke, modify, state_after, returned, calls_of.
  rewrite Hload. cbn. repeat split.
Qed.

Lemma update_model_reloaded_witness :
  emergency_stop halted_engine = true
  /\ consecutive_losses halted_engine = 3
  /\ emergency_stop (state_after (update_model (sample_env 0.9 signer_up) halted_engine))
     = false
  /\ consecutive_losses (state_after (update_model (sample_env 0.9 signer_up) halted_engine))
     = 0.
Proof.
  pose proof (update_model_reloaded (sample_env 0.9 signer_up) halted_engine eq_refl)
    as (Hlosses & Hstop & _).
  repeat split; assumption.
Defined.

(** ** Validation of the configuration *)

(** What [validate_config] checks: it raises exactly when [PRIVATE_KEY]
    or [WEB3_PROVIDER_URL] is empty, [CONFIDENCE_THRESHOLD] compares
    below 0.5 or above 1.0, [SEQUENCE_LENGTH] is below 10 or [BATCH_SIZE]
    is below 1. [MAX_CONSECUTIVE_LOSSES] and [EMERGENCY_STOP_THRESHOLD]
    take no part. *)
Lemma validate_config_cases (fields : Config) :
  is_raise (validate_config fields) = true <->
    PRIVATE_KEY fields = ""
    \/ WEB3_PROVIDER_URL fields = ""
    \/ float_lt (CONFIDENCE_THRESHOLD fields) 0.5 = true
    \/ float_gt (CONFIDENCE_THRESHOLD fields) 1.0 = true
    \/ SEQUENCE_LENGTH fields < 10
    \/ BATCH_SIZE fields < 1.
Proof.
  unfold validate_config.
  destruct (String.eqb_spec (PRIVATE_KEY fields) "") as [Hkey | Hkey];
    [cbn; intuition congruence |].
  destruct (String.eqb_spec (WEB3_PROVIDER_URL fields) "") as [Hurl | Hurl];
    [cbn; intuition congruence |].
  destruct (float_lt (CONFIDENCE_THRESHOLD fields) 0.5) eqn:Hlow;
    [cbn; intuition congruence |].
  destruct (float_gt (CONFIDENCE_THRESHOLD fields) 1.0) eqn:Hhigh;
    [cbn; intuition congruence |].
  cbn [orb].
  destruct (Z.ltb_spec (SEQUENCE_LENGTH fields) 10) as [Hseq | Hseq];
    [cbn; intuition congruence |].
  destruct (Z.ltb_spec (BATCH_SIZE fields) 1) as [Hbatch | Hbatch];
    [cbn; intuition congruence |].
  cbn. split; [discriminate |].
  intros [? | [? | [? | [? | [? | ?]]]]]; try congruence; lia.
Qed.

(** The validator by itself lets the two risk options through: with
    [MAX_CONSECUTIVE_LOSSES] below 1 and [EMERGENCY_STOP_THRESHOLD] above
    1 it returns. *)
Remark validate_config_risk_options_unchecked :
  MAX_CONSECUTIVE_LOSSES unchecked_config < 1
  /\ float_gt (EMERGENCY_STOP_THRESHOLD unchecked_config) 1.0 = true
  /\ validate_config unchecked_config = Return tt.
Proof. repeat split; reflexivity. Qed.




(** ** Outcome updates and the emergency stop *)

(** [_calculate_accuracy] reads the two counters and writes nothing. *)
Lemma calculate_accuracy_run (self : PredictionEngine) :
  _calculate_accuracy self
  = (if total_predictions self =? 0 then Return 0%float
     else truediv (correct_predictions self) (total_predictions self),
     self, []).
Proof.
  unfold _calculate_accuracy, bind, gets, ret, lift.
  destruct (total_predictions self =? 0); reflexivity.
Qed.

(** The three conditions do not read the stop flag. *)
Lemma conditions_ignore_flag (config : Config) (b : bool) (self : PredictionEngine) :
  losses_limit_reached config (set_emergency_stop b self)
  = losses_limit_reached config self
  /\ accuracy_too_low config (set_emergency_stop b self)
     = accuracy_too_low config self
  /\ conditions_improved config (set_emergency_stop b self)
     = conditions_improved config self.
Proof.
  unfold losses_limit_reached, accuracy_too_low, conditions_improved, running_accuracy.
  rewrite !calculate_accuracy_run. repeat split.
Qed.

(** The running accuracy is computable on every engine whose counters
    satisfy [0 <= correct_predictions <= total_predictions]. *)
Lemma running_accuracy_computable (self : PredictionEngine) :
  0 <= correct_predictions self <= total_predictions self ->
  exists accuracy, running_accuracy self = Return accuracy.
Proof.
  intros Hcounters. unfold running_accuracy, returned.
  rewrite calculate_accuracy_run. cbn [fst].
  destruct (Z.eqb_spec (total_predictions self) 0) as [| Htotal];
    [eexists; reflexivity |].
  apply truediv_within_unit; assumption.
Qed.

(** The re-evaluation writes the stop flag and nothing else, makes no
    call and does not raise. *)
Lemma check_emergency_conditions_run (config : Config) (self : PredictionEngine) :
  _check_emergency_conditions config self
  = (Return tt, set_emergency_stop (emergency_stop_after config self) self, []).
Proof.
  destruct self as [losses total correct history stopped last].
  unfold _check_emergency_conditions, emergency_stop_after, losses_limit_reached,
    accuracy_too_low, conditions_improved, running_accuracy, returned,
    _calculate_accuracy, try_except, bind, gets, modify, ret, lift,
    set_emergency_stop.
  case_split; try reflexivity;
    destruct (10 <=? total), stopped, (losses =? 0); reflexivity.
Qed.

(** An update for a round that no recorded prediction carries changes
    nothing. *)
Lemma update_prediction_result_unmatched
    (config : Config) (self : PredictionEngine) (rid actual_outcome : Z) :
  find_prediction (prediction_history self) rid = None ->
  update_prediction_result config rid actual_outcome self = (Return tt, self, []).
Proof.
  intros Hfind.
  unfold update_prediction_result, try_except, bind, gets.
  rewrite Hfind. reflexivity.
Qed.

(** An update for a recorded round counts the outcome, then re-evaluates
    the emergency stop. *)
Lemma update_prediction_result_matched
    (config : Config) (self : PredictionEngine) (rid actual_outcome : Z)
    (prediction : PredictionResult) :
  find_prediction (prediction_history self) rid = Some prediction ->
  update_prediction_result config rid actual_outcome self
  = _check_emergency_conditions config (count_outcome prediction actual_outcome self).
Proof.
  intros Hfind.
  unfold update_prediction_result, try_except at 1, bind, gets.
  rewrite Hfind. unfold count_outcome.
  destruct (direction prediction =? actual_outcome); unfold modify;
    rewrite check_emergency_conditions_run; reflexivity.
Qed.

(** C2: after every outcome update that finds its prediction, with the
    conditions read on the counters as the update leaves them:
    [emergency_stop] goes from false to true exactly when
    [consecutive_losses >= MAX_CONSECUTIVE_LOSSES] or
    ([total_predictions >= 10] and the running accuracy is below
    [EMERGENCY_STOP_THRESHOLD]); whenever one of the two holds the flag is
    true; and when the flag was true and neither holds, it becomes false
    exactly when [consecutive_losses = 0] and the running accuracy is at
    least [CONFIDENCE_THRESHOLD]. *)
Theorem emergency_stop_after_outcome_update
    (config : Config) (self : PredictionEngine) (rid actual_outcome : Z)
    (prediction : PredictionResult) :
  find_prediction (prediction_history self) rid = Some prediction ->
  let self' := state_after (update_prediction_result config rid actual_outcome self) in
  (emergency_stop self = false ->
     (emergency_stop self' = true <->
        losses_limit_reached config self' = true
        \/ accuracy_too_low config self' = true))
  /\ (losses_limit_reached config self' = true \/ accuracy_too_low config self' = true ->
      emergency_stop self' = true)
  /\ (emergency_stop self = true ->
      losses_limit_reached config self' = false ->
      accuracy_too_low config self' = false ->
      (emergency_stop self' = false <-> conditions_improved config self' = true)).
Proof.
  intros Hfind self'. subst self'.
  rewrite (update_prediction_result_matched _ _ _ _ _ Hfind),
    check_emergency_conditions_run.
  set (counted := count_outcome prediction actual_outcome self).
  assert (Hflag : emergency_stop counted = emergency_stop self)
    by (unfold counted, count_outcome;
        destruct (direction prediction =? actual_outcome); reflexivity).
  unfold state_after. cbn [fst snd].
  destruct (conditions_ignore_flag config (emergency_stop_after config counted) counted)
    as (-> & -> & ->).
  replace (emergency_stop
             (set_emergency_stop (emergency_stop_after config counted) counted))
    with (emergency_stop_after config counted) by reflexivity.
  unfold emergency_stop_after. rewrite Hflag.
  destruct (losses_limit_reached config counted),
    (accuracy_too_low config counted),
    (conditions_improved config counted),
    (emergency_stop self); cbn; intuition congruence.
Qed.

Lemma emergency_stop_after_outcome_update_witness :
  emergency_stop two_losses_engine = false
  /\ emergency_stop
       (state_after (update_prediction_result sample_config 7 1 two_losses_engine))
     = true.
Proof.
  split; [reflexivity |].
  pose proof (emergency_stop_after_outcome_update sample_config
                two_losses_engine 7 1 tagged_prediction eq_refl)
    as (_ & Hraise & _).
  apply Hraise. left. reflexivity.
Defined.

(** ** The count of consecutive losses *)

(** An outcome update leaves the history as it was. *)
Lemma update_prediction_result_history
    (config : Config) (self : PredictionEngine) (rid actual_outcome : Z) :
  prediction_history (state_after (update_prediction_result config rid actual_outcome self))
  = prediction_history self.
Proof.
  destruct (find_prediction (prediction_history self) rid) as [prediction |] eqn:Hfind.
  - rewrite (update_prediction_result_matched _ _ _ _ _ Hfind),
      check_emergency_conditions_run.
    unfold count_outcome.
    destruct (direction prediction =? actual_outcome); reflexivity.
  - rewrite (update_prediction_result_unmatched _ _ _ _ Hfind). reflexivity.
Qed.

(** One matched update: a correct outcome resets the count, an incorrect
    one adds 1 to it. *)
Lemma update_prediction_result_losses
    (config : Config) (self : PredictionEngine) (u : Z * Z) :
  matched (prediction_history self) u = true ->
  consecutive_losses (state_after (update_prediction_result config u.1 u.2 self))
  = if incorrect (prediction_history self) u then consecutive_losses self + 1 else 0.
Proof.
  unfold matched, incorrect.
  destruct (find_prediction (prediction_history self) u.1) as [prediction |] eqn:Hfind;
    [intros _ | discriminate].
  rewrite (update_prediction_result_matched _ _ _ _ _ Hfind),
    check_emergency_conditions_run.
  unfold count_outcome.
  destruct (direction prediction =? u.2); reflexivity.
Qed.

Lemma update_many_history
    (config : Config) (updates : list (Z * Z)) (self : PredictionEngine) :
  prediction_history (update_many config updates self) = prediction_history self.
Proof.
  revert self. induction updates as [| u updates IH]; intros self; [reflexivity |].
  change (update_many config (u :: updates) self)
    with (update_many config updates
            (state_after (update_prediction_result config u.1 u.2 self))).
  rewrite IH. apply update_prediction_result_history.
Qed.

Lemma trailing_run_snoc (l : list bool) (b : bool) :
  trailing_run (l ++ [b]) = if b then 1 + trailing_run l else 0.
Proof.
  unfold trailing_run. rewrite rev_app_distr. destruct b; reflexivity.
Qed.

(** C3: from an engine that counts no loss, as the initial one does,
    after any sequence of outcome updates that each find their
    prediction, [consecutive_losses] is the length of the run of
    incorrect outcomes that ends the sequence; each correct outcome
    ([direction = actual_outcome]) resets it to 0 and each incorrect one
    adds 1. *)
Theorem consecutive_losses_trailing_run
    (config : Config) (self : PredictionEngine) (updates : list (Z * Z)) :
  consecutive_losses self = 0 ->
  Forall (fun u => matched (prediction_history self) u = true) updates ->
  consecutive_losses (update_many config updates self)
  = trailing_run (map (incorrect (prediction_history self)) updates).
Proof.
  intros Hzero.
  induction updates as [| u updates IH] using rev_ind; intros Hmatched.
  - exact Hzero.
  - apply Forall_app in Hmatched as [Hinit Hlast].
    apply Forall_cons in Hlast as [Hu _].
    unfold update_many in *. rewrite fold_left_app. cbn [fold_left].
    fold (update_many config updates self).
    rewrite update_prediction_result_losses
      by (rewrite update_many_history; exact Hu).
    rewrite update_many_history, map_app. cbn [map]. rewrite trailing_run_snoc.
    fold (update_many config updates self) in IH.
    rewrite (IH Hinit).
    destruct (incorrect (prediction_history self) u); lia.
Qed.

Lemma consecutive_losses_trailing_run_witness :
  consecutive_losses
    (update_many sample_config [(7, 1); (7, 0); (7, 1); (7, 1)] one_prediction_engine)
  = 2.
Proof.
  rewrite (consecutive_losses_trailing_run sample_config one_prediction_engine
             [(7, 1); (7, 0); (7, 1); (7, 1)]).
  - reflexivity.
  - reflexivity.
  - repeat constructor.
Defined.

(** ** Attestation *)

Lemma get_model_version_run `{PyRuntime} (env : collaborators) (self : PredictionEngine) :
  _get_model_version env self
  = (Return (model_version_of env), self, [get_model_info_call]).
Proof.
  unfold _get_model_version, model_version_of, try_except, bind, invoke, ret.
  destruct (get_model_info env); reflexivity.
Qed.

(** [_create_signature_hash] always returns: the digest of the signature
    when the signer answers, the digest of [str(prediction_data)] when it
    raises. It writes nothing and makes the one call to the signer. *)
Lemma create_signature_hash_run `{PyRuntime}
    (env : collaborators) (d : prediction_data) (self : PredictionEngine) :
  _create_signature_hash env d self
  = (Return match sign_message env (signing_message d) with
            | Return signature => sha256_hexdigest signature
            | Raise _ => sha256_hexdigest (str_prediction_data d)
            end,
     self, [sign_message_call (signing_message d)]).
Proof.
  unfold _create_signature_hash, try_except, bind, invoke, ret.
  destruct (sign_message env (signing_message d)); reflexivity.
Qed.

(** [_create_prediction_result] writes nothing and calls the model
    trainer for its version, then the signer. When it returns, the result
    carries the direction and the confidence it was given, the digest of
    the features, the digest that [_create_signature_hash] returned, no
    [round_id], and a metadata dictionary of exactly four keys. *)
Lemma create_prediction_result_run `{PyRuntime}
    (env : collaborators) (dir : Z) (conf : float) (features : ndarray)
    (self : PredictionEngine) :
  let d := prediction_data_of env dir conf features in
  exists res,
    _create_prediction_result env dir conf features self
    = (res, self, [get_model_info_call; sign_message_call (signing_message d)])
    /\ forall r, res = Return r ->
         direction r = dir
         /\ confidence r = conf
         /\ features_hash r = sha256_hexdigest (tobytes features)
         /\ Return (signature_hash r) = returned (_create_signature_hash env d self)
         /\ round_id r = None
         /\ dom (metadata r) = metadata_keys.
Proof.
  intros d.
  unfold _create_prediction_result.
  unfold bind at 1. rewrite get_model_version_run.
  unfold bind at 1. fold d. rewrite create_signature_hash_run.
  unfold bind at 1, gets at 1. unfold bind at 1, gets at 1.
  unfold bind at 1. rewrite calculate_accuracy_run.
  destruct (if total_predictions self =? 0 then _ else _) as [accuracy | e];
    [| eexists; split; [reflexivity | discriminate]].
  unfold bind, lift, ret.
  destruct (if (1 <? length (shape features))%nat then _ else _) as [count | e];
    [| eexists; split; [reflexivity | discriminate]].
  eexists; split; [reflexivity |].
  intros r [= <-]. rewrite create_signature_hash_run.
  repeat split.
Qed.

(** C4, as stated, fails. With a signer that raises, the signature hash
    of the prediction is the digest of [str(prediction_data)], the
    display of the whole dictionary, which is not the message built from
    direction, timestamp and features hash; and the metadata holds the
    same four keys, with the same values, as when the signer answers:
    nothing in it marks the attestation as degraded. *)
Lemma fallback_hashes_whole_dictionary_unflagged :
  let down := sample_env 0.9 signer_down in
  let up := sample_env 0.9 signer_up in
  let d := @prediction_data_of sample_runtime down 1 0.9 sample_features in
  exists r r_up,
    returned (@_create_prediction_result sample_runtime down 1 0.9 sample_features
                PredictionEngine_init) = Return r
    /\ returned (@_create_prediction_result sample_runtime up 1 0.9 sample_features
                   PredictionEngine_init) = Return r_up
    /\ signing_message d = "12024-01-01T00:00:00sha256(features)"
    /\ signature_hash r
       = "sha256({'direction': 1, 'confidence': 0.9, 'timestamp': '2024-01-01T00:00:00', 'features_hash': 'sha256(features)', 'model_version': 'v1.0_1234'})"
    /\ signature_hash r <> @sha256_hexdigest sample_runtime (signing_message d)
    /\ dom (metadata r) = metadata_keys
    /\ metadata r = metadata r_up.
Proof.
  cbv zeta. eexists. eexists.
  split; [vm_compute; reflexivity |].
  split; [vm_compute; reflexivity |].
  split; [vm_compute; reflexivity |].
  split; [vm_compute; reflexivity |].
  split; [vm_compute; discriminate |].
  split; reflexivity.
Qed.

(** C4, amended: [_create_signature_hash] never raises and always
    returns a digest. When the call to the signer raises, the digest is
    that of [str(prediction_data)] (direction, confidence, timestamp,
    features hash and model version, as the dictionary displays them);
    when the signer answers, whatever it answers, the digest is that of
    the answer. The prediction built from it carries that digest, and its
    metadata has the four keys [total_predictions], [consecutive_losses],
    [accuracy] and [feature_count] and no other, so no flag of a degraded
    attestation. *)
Theorem create_signature_hash_fallback `{PyRuntime}
    (env : collaborators) (self : PredictionEngine) :
  (forall d e,
     sign_message env (signing_message d) = Raise e ->
     _create_signature_hash env d self
     = (Return (sha256_hexdigest (str_prediction_data d)), self,
        [sign_message_call (signing_message d)]))
  /\ (forall d signature,
        sign_message env (signing_message d) = Return signature ->
        _create_signature_hash env d self
        = (Return (sha256_hexdigest signature), self,
           [sign_message_call (signing_message d)]))
  /\ (forall d, exists digest,
        returned (_create_signature_hash env d self) = Return digest)
  /\ (forall dir conf features r,
        returned (_create_prediction_result env dir conf features self) = Return r ->
        Return (signature_hash r)
        = returned (_create_signature_hash env
                      (prediction_data_of env dir conf features) self)
        /\ dom (metadata r) = metadata_keys).
Proof.
  split; [| split; [| split]].
  - intros d e Hsign. rewrite create_signature_hash_run, Hsign. reflexivity.
  - intros d signature Hsign. rewrite create_signature_hash_run, Hsign. reflexivity.
  - intros d. rewrite create_signature_hash_run. eexists. reflexivity.
  - intros dir conf features r Hr.
    destruct (create_prediction_result_run env dir conf features self)
      as (res & Hrun & Hres).
    rewrite Hrun in Hr.
    destruct (Hres r Hr) as (_ & _ & _ & Hsignature & _ & Hkeys).
    split; assumption.
Qed.

(** ** Manual override *)

(** C5: [manual_override] is not gated by the risk state. For every
    engine with [0 <= correct_predictions <= total_predictions],
    whatever its [emergency_stop], and every confidence (0.9 when the
    caller passes none), whenever the placeholder window is drawn
    ([np.random.random] makes the array of [SEQUENCE_LENGTH] by
    [FEATURE_COUNT], which it refuses for a negative dimension and for
    an array that cannot be made), it returns a prediction with the
    direction and the confidence it was given, the digest of the
    placeholder features, the digest returned by
    [_create_signature_hash], and [manual_override = True] in its
    metadata. The engine is unchanged
    and the only calls are those of the attestation: the feature
    provider and the classifier are not called, and the same prediction
    comes out whether the stop flag is set or not. *)
Theorem manual_override_not_gated `{PyRuntime}
    (config : Config) (env : collaborators) (dir : Z) (conf : float)
    (self : PredictionEngine) (dummy_features : ndarray) :
  np_random_random env [SEQUENCE_LENGTH config; FEATURE_COUNT config]
  = Return dummy_features ->
  0 <= correct_predictions self <= total_predictions self ->
  let d := prediction_data_of env dir conf dummy_features in
  let calls := [get_model_info_call; sign_message_call (signing_message d)] in
  exists r,
    manual_override config env dir conf self = (Return (Some r), self, calls)
    /\ (forall stopped,
          manual_override config env dir conf (set_emergency_stop stopped self)
          = (Return (Some r), set_emergency_stop stopped self, calls))
    /\ metadata r !! "manual_override" = Some (PyBool true)
    /\ direction r = dir
    /\ confidence r = conf
    /\ features_hash r = sha256_hexdigest (tobytes dummy_features)
    /\ Return (signature_hash r) = returned (_create_signature_hash env d self).
Proof.
  intros Hdims Hcounters d calls.
  destruct (running_accuracy_computable self Hcounters) as [accuracy Haccuracy].
  unfold running_accuracy in Haccuracy.
  rewrite calculate_accuracy_run in Haccuracy. cbn in Haccuracy.
  assert (Hshape : shape dummy_features
                   = [SEQUENCE_LENGTH config; FEATURE_COUNT config]).
  { unfold np_random_random in Hdims.
    destruct (existsb _ _); [discriminate |].
    destruct (random_bytes env _); [| discriminate].
    injection Hdims as <-. reflexivity. }
  assert (Hrun : forall self',
             total_predictions self' = total_predictions self ->
             correct_predictions self' = correct_predictions self ->
             exists r,
               _create_prediction_result env dir conf dummy_features self'
               = (Return r, self', calls)
               /\ direction r = dir
               /\ confidence r = conf
               /\ features_hash r = sha256_hexdigest (tobytes dummy_features)
               /\ Return (signature_hash r)
                  = returned (_create_signature_hash env d self')
               /\ timestamp r = datetime_now env 0
               /\ model_version r = model_version_of env
               /\ round_id r = None
               /\ metadata r
                  = <["feature_count" := PyInt (FEATURE_COUNT config)]>
                      (<["accuracy" := PyFloat accuracy]>
                         (<["consecutive_losses" := PyInt (consecutive_losses self')]>
                            (<["total_predictions" := PyInt (total_predictions self')]>
                               ∅)))).
  { intros self' Htotal Hcorrect.
    unfold _create_prediction_result.
    unfold bind at 1. rewrite get_model_version_run.
    unfold bind at 1. fold d. rewrite !create_signature_hash_run.
    unfold bind at 1, gets at 1. unfold bind at 1, gets at 1.
    unfold bind at 1. rewrite calculate_accuracy_run, Htotal, Hcorrect, Haccuracy.
    unfold bind, lift, ret. rewrite Hshape. cbn.
    eexists. repeat split. }
  destruct (Hrun self eq_refl eq_refl) as (r & Hself & Hdir & Hconf & Hhash & Hsig & Hr).
  exists (set_metadata (<["manual_override" := PyBool true]> (metadata r)) r).
  split; [| split; [| repeat split]].
  - unfold manual_override, try_except, bind at 1, lift. rewrite Hdims.
    unfold bind. rewrite Hself. reflexivity.
  - intros stopped.
    destruct (Hrun (set_emergency_stop stopped self) eq_refl eq_refl)
      as (r' & Hself' & Hdir' & Hconf' & Hhash' & Hsig' & Htime' & Hversion' & Hround'
          & Hmeta').
    destruct Hr as (Htime & Hversion & Hround & Hmeta).
    assert (Hsame : r' = r).
    { rewrite !create_signature_hash_run in Hsig, Hsig'.
      destruct r, r'; cbn in *.
      injection Hsig as ->. injection Hsig' as ->. subst. reflexivity. }
    unfold manual_override, try_except, bind at 1, lift. rewrite Hdims.
    unfold bind. rewrite Hself', Hsame. reflexivity.
  - cbn. apply lookup_insert_eq.
  - exact Hdir.
  - exact Hconf.
  - exact Hhash.
  - exact Hsig.
Qed.

Lemma manual_override_not_gated_witness :
  emergency_stop halted_engine = true
  /\ exists r,
       @manual_override sample_runtime sample_config (sample_env 0.55 signer_up) 0 0.9
         halted_engine
       = (Return (Some r), halted_engine,
          [get_model_info_call;
           sign_message_call "02024-01-01T00:00:00sha256(random)"])
       /\ metadata r !! "manual_override" = Some (PyBool true)
       /\ signature_hash r = "sha256(signed:02024-01-01T00:00:00sha256(random))".
Proof.
  split; [reflexivity |].
  destruct (@manual_override_not_gated sample_runtime sample_config
              (sample_env 0.55 signer_up) 0 0.9 halted_engine
              {| shape := [60; 20]; tobytes := "random" |})
    as (r & Hrun & _ & Hflag & _ & _ & _ & Hsig).
  - reflexivity.
  - cbn. lia.
  - exists r. split; [exact Hrun |]. split; [exact Hflag |].
    rewrite create_signature_hash_run in Hsig. injection Hsig as ->. reflexivity.
Defined.

(** ** The history of predictions *)

(** [generate_prediction] either returns [None] and leaves the engine as
    it was, or returns a prediction without [round_id] and records it. *)
Lemma generate_prediction_cases `{PyRuntime}
    (config : Config) (env : collaborators) (self : PredictionEngine) :
  (exists calls, generate_prediction config env self = (Return None, self, calls))
  \/ (exists r calls,
        generate_prediction config env self
        = (Return (Some r), record_prediction (datetime_now env 1) r self, calls)
        /\ round_id r = None).
Proof.
  unfold generate_prediction, try_except, bind, gets, invoke, modify, ret.
  destruct (emergency_stop self); [left; eexists; reflexivity |].
  destruct (get_latest_features env) as [[features |] | e];
    [| left; eexists; reflexivity | left; eexists; reflexivity].
  destruct (predict env features) as [[dir conf] | e];
    [| left; eexists; reflexivity].
  cbn -[_create_prediction_result float_lt Nat.ltb slice_last length].
  destruct (float_lt conf (CONFIDENCE_THRESHOLD config));
    [left; eexists; reflexivity |].
  destruct (create_prediction_result_run env dir conf features self)
    as (res & -> & Hres).
  destruct res as [r | e]; [| left; eexists; reflexivity].
  destruct (Hres r eq_refl) as (_ & _ & _ & _ & Hround & _).
  right. exists r. unfold record_prediction.
  cbn -[Nat.ltb slice_last length].
  destruct (100 <? length (prediction_history self ++ [r]))%nat;
    eexists; (split; [reflexivity | exact Hround]).
Qed.

(** The history that [record_prediction] leaves. *)
Lemma record_prediction_history (now : datetime) (r : PredictionResult)
    (self : PredictionEngine) :
  (length (prediction_history self) <= 100)%nat ->
  prediction_history (record_prediction now r self)
  = if (length (prediction_history self) <? 100)%nat
    then prediction_history self ++ [r]
    else drop 1 (prediction_history self) ++ [r].
Proof.
  intros Hbound. unfold record_prediction. cbn [prediction_history].
  rewrite length_app. cbn [length].
  destruct (Nat.ltb_spec 100 (length (prediction_history self) + 1)) as [Hfull | Hroom];
    destruct (Nat.ltb_spec (length (prediction_history self)) 100) as [Hlt | Hge];
    try lia; try reflexivity.
  unfold slice_last. rewrite length_app. cbn [length].
  replace (length (prediction_history self) + 1 - 100)%nat with 1%nat by lia.
  rewrite drop_app_le by lia. reflexivity.
Qed.

(** One [generate_prediction] keeps the history within its bound. *)
Lemma generate_prediction_bounded `{PyRuntime}
    (config : Config) (env : collaborators) (self : PredictionEngine) :
  (length (prediction_history self) <= 100)%nat ->
  (length (prediction_history (state_after (generate_prediction config env self)))
   <= 100)%nat.
Proof.
  intros Hbound.
  destruct (generate_prediction_cases config env self)
    as [(calls & ->) | (r & calls & -> & _)]; [exact Hbound |].
  unfold state_after. cbn [fst snd].
  rewrite record_prediction_history by exact Hbound.
  destruct (Nat.ltb_spec (length (prediction_history self)) 100);
    rewrite length_app; [| rewrite length_drop]; cbn [length]; lia.
Qed.

(** C7: after any sequence of [generate_prediction] calls on a new
    engine, [prediction_history] has at most 100 entries; and eviction
    is first in, first out: a prediction generated when the history
    holds 100 entries (the append that would make it the 101st) leaves
    the former entries but the oldest, in their order, followed by the
    new one, while below 100 entries it is appended and nothing is
    removed. *)
Theorem prediction_history_bounded_fifo `{PyRuntime} (config : Config) :
  (forall envs,
     (length (prediction_history (generate_many config envs PredictionEngine_init))
      <= 100)%nat)
  /\ (forall env self r,
        returned (generate_prediction config env self) = Return (Some r) ->
        length (prediction_history self) = 100%nat ->
        prediction_history (state_after (generate_prediction config env self))
        = drop 1 (prediction_history self) ++ [r])
  /\ (forall env self r,
        returned (generate_prediction config env self) = Return (Some r) ->
        (length (prediction_history self) < 100)%nat ->
        prediction_history (state_after (generate_prediction config env self))
        = prediction_history self ++ [r]).
Proof.
  split; [| split].
  - intros envs.
    assert (Hgen : forall self,
               (length (prediction_history self) <= 100)%nat ->
               (length (prediction_history (generate_many config envs self)) <= 100)%nat).
    { induction envs as [| env envs IH]; intros self Hbound; [exact Hbound |].
      change (generate_many config (env :: envs) self)
        with (generate_many config envs
                (state_after (generate_prediction config env self))).
      apply IH, generate_prediction_bounded, Hbound. }
    apply Hgen. cbn. lia.
  - intros env self r Hreturned Hfull.
    destruct (generate_prediction_cases config env self)
      as [(calls & Hrun) | (r' & calls & Hrun & _)];
      rewrite Hrun in Hreturned |- *; [discriminate |].
    injection Hreturned as ->. unfold state_after. cbn [fst snd].
    rewrite record_prediction_history by lia.
    destruct (Nat.ltb_spec (length (prediction_history self)) 100); [lia | reflexivity].
  - intros env self r Hreturned Hroom.
    destruct (generate_prediction_cases config env self)
      as [(calls & Hrun) | (r' & calls & Hrun & _)];
      rewrite Hrun in Hreturned |- *; [discriminate |].
    injection Hreturned as ->. unfold state_after. cbn [fst snd].
    rewrite record_prediction_history by lia.
    destruct (Nat.ltb_spec (length (prediction_history self)) 100); [reflexivity | lia].
Qed.

Lemma prediction_history_bounded_fifo_witness :
  exists r,
    returned (@generate_prediction sample_runtime sample_config
                (sample_env 0.9 signer_up) full_engine) = Return (Some r)
    /\ length (prediction_history full_engine) = 100%nat
    /\ prediction_history
         (state_after (@generate_prediction sample_runtime sample_config
                         (sample_env 0.9 signer_up) full_engine))
       = replicate 99 tagged_prediction ++ [r]
    /\ round_id r = None.
Proof.
  destruct (@prediction_history_bounded_fifo sample_runtime sample_config)
    as (_ & Hfifo & _).
  eexists. split; [vm_compute; reflexivity |].
  split; [reflexivity |].
  split; [| reflexivity].
  rewrite (Hfifo (sample_env 0.9 signer_up) full_engine _ eq_refl eq_refl).
  reflexivity.
Defined.

(** ** Correct predictions and the total *)

(** No update finds a prediction in a history without [round_id]. *)
Lemma find_prediction_untagged (history : list PredictionResult) (rid : Z) :
  untagged history -> find_prediction history rid = None.
Proof.
  unfold untagged, find_prediction.
  induction 1 as [| r history Hr _ IH]; [reflexivity |].
  cbn. rewrite Hr. exact IH.
Qed.

(** [manual_override] reads the engine and writes nothing to it. *)
Lemma manual_override_state `{PyRuntime}
    (config : Config) (env : collaborators) (dir : Z) (conf : float)
    (self : PredictionEngine) :
  state_after (manual_override config env dir conf self) = self.
Proof.
  unfold manual_override, try_except, bind, lift, ret.
  destruct (np_random_random env _) as [dummy_features | e]; [| reflexivity].
  destruct (create_prediction_result_run env dir conf dummy_features self)
    as (res & -> & _).
  destruct res; reflexivity.
Qed.

Lemma step_well_counted `{PyRuntime}
    (config : Config) (self : PredictionEngine) (o : operation) :
  well_counted self -> well_counted (step config self o).
Proof.
  intros [Hcount Huntagged].
  destruct o as [env | rid actual_outcome | env dir conf | | env];
    unfold step.
  - destruct (generate_prediction_cases config env self)
      as [(calls & ->) | (r & calls & -> & Hround)]; [split; assumption |].
    unfold state_after, record_prediction, well_counted, untagged in *.
    cbn [fst snd correct_predictions total_predictions prediction_history].
    split; [lia |].
    assert (Hall : Forall (fun r => round_id r = None) (prediction_history self ++ [r]))
      by (apply Forall_app; split; [exact Huntagged | repeat constructor; exact Hround]).
    destruct (100 <? length (prediction_history self ++ [r]))%nat; [| exact Hall].
    unfold slice_last. apply Forall_drop, Hall.
  - rewrite update_prediction_result_unmatched
      by (apply find_prediction_untagged, Huntagged).
    split; assumption.
  - rewrite manual_override_state. split; assumption.
  - split; assumption.
  - unfold update_model, try_except, bind, invoke, modify, ret.
    destruct (load_model env) as [[|] | e]; split; assumption.
Qed.

(** The counters after one operation: [total_predictions] never goes
    down and stays as it is under an outcome update, and
    [correct_predictions] grows by one exactly under an outcome update
    that finds its prediction and agrees with it. *)
Lemma step_counters `{PyRuntime}
    (config : Config) (self : PredictionEngine) (o : operation) :
  correct_predictions (step config self o)
  = correct_predictions self + Z.b2z (credited self o)
  /\ total_predictions self <= total_predictions (step config self o)
  /\ (credited self o = true ->
      total_predictions (step config self o) = total_predictions self).
Proof.
  destruct o as [env | rid actual_outcome | env dir conf | | env];
    unfold step, credited.
  - destruct (generate_prediction_cases config env self)
      as [(calls & ->) | (r & calls & -> & _)];
      unfold state_after, record_prediction;
      cbn [fst snd correct_predictions total_predictions Z.b2z];
      repeat split; first [lia | discriminate].
  - destruct (find_prediction (prediction_history self) rid) as [prediction |] eqn:Hfind.
    + rewrite (update_prediction_result_matched _ _ _ _ _ Hfind),
        check_emergency_conditions_run.
      unfold count_outcome, state_after.
      destruct (direction prediction =? actual_outcome);
        cbn [fst snd correct_predictions total_predictions set_emergency_stop
             set_consecutive_losses set_correct_predictions Z.b2z];
        repeat split; lia.
    + rewrite (update_prediction_result_unmatched _ _ _ _ Hfind).
      unfold state_after. cbn [fst snd Z.b2z]. repeat split; first [lia | discriminate].
  - rewrite manual_override_state. cbn [Z.b2z].
    repeat split; first [lia | discriminate].
  - cbn [Z.b2z]. repeat split; first [cbn; lia | discriminate].
  - unfold update_model, try_except, bind, invoke, modify, ret.
    destruct (load_model env) as [[|] | e]; cbn [Z.b2z];
      repeat split; first [cbn; lia | discriminate].
Qed.

(** C8, as stated, fails: repeated outcome updates for one round break
    the inequality. On an engine that counts one prediction, recorded
    with round 7 attached and direction 0, two updates of round 7 with
    outcome 0 leave two correct predictions out of one. *)
Lemma repeated_update_of_tagged_round :
  let ops := [op_update_prediction_result 7 0; op_update_prediction_result 7 0] in
  let after := @run sample_runtime sample_config ops one_prediction_engine in
  correct_predictions one_prediction_engine <= total_predictions one_prediction_engine
  /\ correct_predictions after = 2
  /\ total_predictions after = 1
  /\ ~ correct_predictions after <= total_predictions after.
Proof.
  repeat split; try (vm_compute; reflexivity).
  - vm_compute. discriminate.
  - vm_compute. intros Hle. apply Hle. reflexivity.
Qed.

(** C8, amended: [0 <= correct_predictions <= total_predictions] holds on
    a new engine and after every sequence of [generate_prediction],
    [update_prediction_result], [manual_override], [reset_emergency_stop]
    and [update_model] from it, where no recorded prediction carries a
    [round_id] and an outcome update finds nothing. In any state, an
    operation adds one to [correct_predictions] exactly when it is an
    outcome update that finds its prediction and agrees with its
    direction, every time it is applied, and such an update leaves
    [total_predictions] as it is; no operation lowers
    [total_predictions]. So each operation preserves the inequality
    except such an update at [correct_predictions = total_predictions]. *)
Theorem correct_predictions_counted `{PyRuntime} (config : Config) :
  (forall ops,
     0 <= correct_predictions (run config ops PredictionEngine_init)
       <= total_predictions (run config ops PredictionEngine_init))
  /\ (forall self o,
        correct_predictions (step config self o)
        = correct_predictions self + Z.b2z (credited self o)
        /\ total_predictions self <= total_predictions (step config self o)
        /\ (credited self o = true ->
            total_predictions (step config self o) = total_predictions self))
  /\ (forall self o,
        correct_predictions self <= total_predictions self ->
        (correct_predictions (step config self o)
         <= total_predictions (step config self o)
         <-> (credited self o = true ->
              correct_predictions self < total_predictions self))).
Proof.
  split; [| split].
  - intros ops.
    assert (Hrun : forall self, well_counted self -> well_counted (run config ops self)).
    { induction ops as [| o ops IH]; intros self Hself; [exact Hself |].
      change (run config (o :: ops) self) with (run config ops (step config self o)).
      apply IH, step_well_counted, Hself. }
    apply Hrun. split; [cbn; lia | constructor].
  - intros self o. apply step_counters.
  - intros self o Hle.
    destruct (step_counters config self o) as (Hcorrect & Htotal & Hsame).
    rewrite Hcorrect.
    destruct (credited self o); cbn [Z.b2z].
    + rewrite (Hsame eq_refl). split; [intros Hstep _; lia | intros Hlt; specialize (Hlt eq_refl); lia].
    + split; [intros _ Habsurd; discriminate | intros _; lia].
Qed.

(** ** Outcomes are never scored *)

Lemma run_cons `{PyRuntime} (config : Config) (o : operation) (ops : list operation)
    (self : PredictionEngine) :
  run config (o :: ops) self = run config ops (step config self o).
Proof. reflexivity. Qed.

(** An invariant of [step] holds after every run. *)
Lemma run_invariant `{PyRuntime} (config : Config) (P : PredictionEngine -> Prop) :
  (forall self o, P self -> P (step config self o)) ->
  forall ops self, P self -> P (run config ops self).
Proof.
  intros Hstep ops. induction ops as [| o ops IH]; intros self Hself; [exact Hself |].
  rewrite run_cons. apply IH, Hstep, Hself.
Qed.

Lemma untagged_record (now : datetime) (r : PredictionResult) (self : PredictionEngine) :
  round_id r = None ->
  untagged (prediction_history self) ->
  untagged (prediction_history (record_prediction now r self)).
Proof.
  intros Hround Huntagged. unfold record_prediction, untagged in *.
  cbn [prediction_history].
  assert (Hall : Forall (fun r => round_id r = None) (prediction_history self ++ [r]))
    by (apply Forall_app; split; [exact Huntagged | repeat constructor; exact Hround]).
  destruct (100 <? length (prediction_history self ++ [r]))%nat; [| exact Hall].
  unfold slice_last. apply Forall_drop, Hall.
Qed.

Lemma update_model_state (env : collaborators) (self : PredictionEngine) :
  state_after (update_model env self)
  = match load_model env with
    | Return true => set_emergency_stop false (set_consecutive_losses 0 self)
    | _ => self
    end.
Proof.
  unfold update_model, try_except, bind, invoke, modify, ret.
  destruct (load_model env) as [[|] | e]; reflexivity.
Qed.

Lemma step_never_scored `{PyRuntime}
    (config : Config) (self : PredictionEngine) (o : operation) :
  never_scored self -> never_scored (step config self o).
Proof.
  intros (Hstop & Hlosses & Hcorrect & Huntagged).
  destruct o as [env | rid actual_outcome | env dir conf | | env]; unfold step.
  - destruct (generate_prediction_cases config env self)
      as [(calls & ->) | (r & calls & -> & Hround)]; [repeat split; assumption |].
    unfold state_after. cbn [fst snd].
    repeat split; try assumption.
    apply untagged_record; assumption.
  - rewrite update_prediction_result_unmatched
      by (apply find_prediction_untagged, Huntagged).
    repeat split; assumption.
  - rewrite manual_override_state. repeat split; assumption.
  - repeat split; assumption.
  - rewrite update_model_state.
    destruct (load_model env) as [[|] | e]; repeat split; assumption.
Qed.

(** ** The history follows the count of predictions *)

Lemma step_history_in_step `{PyRuntime}
    (config : Config) (self : PredictionEngine) (o : operation) :
  history_in_step self -> history_in_step (step config self o).
Proof.
  intros (Htotal & Hlength & Hlast).
  destruct o as [env | rid actual_outcome | env dir conf | | env]; unfold step.
  - destruct (generate_prediction_cases config env self)
      as [(calls & ->) | (r & calls & -> & Hround)]; [repeat split; tauto |].
    unfold state_after. cbn [fst snd].
    assert (Hbound : (length (prediction_history self) <= 100)%nat) by lia.
    unfold history_in_step.
    rewrite record_prediction_history by exact Hbound.
    cbn [record_prediction total_predictions last_prediction_time].
    split; [lia |]. split.
    + destruct (Nat.ltb_spec (length (prediction_history self)) 100);
        rewrite length_app; [| rewrite length_drop]; cbn [length]; lia.
    + split; [discriminate | lia].
  - destruct (find_prediction (prediction_history self) rid) as [prediction |] eqn:Hfind.
    + rewrite (update_prediction_result_matched _ _ _ _ _ Hfind),
        check_emergency_conditions_run.
      unfold count_outcome.
      destruct (direction prediction =? actual_outcome); repeat split; tauto.
    + rewrite (update_prediction_result_unmatched _ _ _ _ Hfind). repeat split; tauto.
  - rewrite manual_override_state. repeat split; tauto.
  - repeat split; tauto.
  - rewrite update_model_state.
    destruct (load_model env) as [[|] | e]; repeat split; tauto.
Qed.

(** X2: after any sequence of the five operations on a new engine,
    [prediction_history] holds [min(total_predictions, 100)] entries,
    [total_predictions] is not negative, and [last_prediction_time] is
    [None] exactly when no prediction was counted. *)
Theorem history_length_follows_total `{PyRuntime}
    (config : Config) (ops : list operation) :
  let self := run config ops PredictionEngine_init in
  0 <= total_predictions self
  /\ Z.of_nat (length (prediction_history self)) = Z.min (total_predictions self) 100
  /\ (last_prediction_time self = None <-> total_predictions self = 0).
Proof.
  intros self.
  apply (run_invariant config history_in_step (step_history_in_step config)).
  unfold history_in_step. cbn. repeat split; lia.
Qed.

(** ** A prediction that passes the threshold *)

(** The feature count of the metadata: the last dimension of an array of
    two dimensions or more, the length of a vector. *)
Lemma feature_count_defined (features : ndarray) :
  shape features <> [] ->
  exists count,
    (if (1 <? length (shape features))%nat
     then Return (List.last (shape features) 0)
     else ndarray_len features) = Return count.
Proof.
  intros Hshape. unfold ndarray_len.
  destruct (shape features) as [| n [| m dims]]; [contradiction | |];
    eexists; reflexivity.
Qed.

Lemma create_prediction_result_returns `{PyRuntime}
    (env : collaborators) (dir : Z) (conf : float) (features : ndarray)
    (self : PredictionEngine) (accuracy : float) (count : Z) :
  running_accuracy self = Return accuracy ->
  (if (1 <? length (shape features))%nat
   then Return (List.last (shape features) 0)
   else ndarray_len features) = Return count ->
  let d := prediction_data_of env dir conf features in
  _create_prediction_result env dir conf features self
  = (Return
       {| direction := dir;
          confidence := conf;
          timestamp := datetime_now env 0;
          features_hash := sha256_hexdigest (tobytes features);
          signature_hash :=
            match sign_message env (signing_message d) with
            | Return signature => sha256_hexdigest signature
            | Raise _ => sha256_hexdigest (str_prediction_data d)
            end;
          model_version := model_version_of env;
          metadata :=
            <["feature_count" := PyInt count]>
              (<["accuracy" := PyFloat accuracy]>
                 (<["consecutive_losses" := PyInt (consecutive_losses self)]>
                    (<["total_predictions" := PyInt (total_predictions self)]> ∅)));
          round_id := None |},
     self, [get_model_info_call; sign_message_call (signing_message d)]).
Proof.
  intros Haccuracy Hcount d.
  unfold running_accuracy, returned in Haccuracy.
  rewrite calculate_accuracy_run in Haccuracy. cbn [fst] in Haccuracy.
  unfold _create_prediction_result.
  unfold bind at 1. rewrite get_model_version_run.
  unfold bind at 1. fold d. rewrite create_signature_hash_run.
  unfold bind at 1, gets at 1. unfold bind at 1, gets at 1.
  unfold bind at 1. rewrite calculate_accuracy_run, Haccuracy.
  unfold bind, lift, ret. rewrite Hcount. reflexivity.
Qed.

(** What [generate_prediction] does with the result it was built. *)
Lemma generate_prediction_accepted `{PyRuntime}
    (config : Config) (env : collaborators) (self : PredictionEngine)
    (features : ndarray) (dir : Z) (conf : float)
    (res : result PredictionResult) (calls : list call) :
  emergency_stop self = false ->
  get_latest_features env = Return (Some features) ->
  predict env features = Return (dir, conf) ->
  float_lt conf (CONFIDENCE_THRESHOLD config) = false ->
  _create_prediction_result env dir conf features self = (res, self, calls) ->
  generate_prediction config env self
  = match res with
    | Return r =>
        (Return (Some r), record_prediction (datetime_now env 1) r self,
         [get_latest_features_call; predict_call features] ++ calls)
    | Raise _ =>
        (Return None, self, [get_latest_features_call; predict_call features] ++ calls)
    end.
Proof.
  intros Hstop Hfeatures Hpredict Hpass Hcreate.
  unfold generate_prediction, try_except, bind at 1, gets at 1.
  rewrite Hstop. unfold bind at 1, invoke at 1. rewrite Hfeatures.
  unfold bind at 1, invoke at 1. rewrite Hpredict, Hpass.
  unfold bind at 1. rewrite Hcreate.
  destruct res as [r | e].
  - unfold bind, modify, gets, ret, record_prediction.
    cbn -[Nat.ltb slice_last length].
    destruct (100 <? length (prediction_history self ++ [r]))%nat;
      cbn; rewrite ?app_nil_r; reflexivity.
  - cbn. rewrite ?app_nil_r. reflexivity.
Qed.

Lemma record_prediction_last (now : datetime) (r : PredictionResult)
    (self : PredictionEngine) :
  exists kept, prediction_history (record_prediction now r self) = kept ++ [r].
Proof.
  unfold record_prediction. cbn [prediction_history].
  destruct (100 <? length _)%nat.
  - unfold slice_last. rewrite length_app. cbn [length].
    rewrite drop_app_le by lia. eexists. reflexivity.
  - eexists. reflexivity.
Qed.

(** X3: when the engine is not stopped, the features arrive, the
    classifier answers with a confidence that is not below
    [CONFIDENCE_THRESHOLD], the counters satisfy
    [0 <= correct_predictions <= total_predictions] and the features
    have at least one dimension, [generate_prediction] returns a
    prediction with the direction and confidence of the classifier,
    stamped with the first reading of the clock. Its metadata holds the
    counters as they were before this prediction was counted;
    [total_predictions] then grows by one, [last_prediction_time]
    becomes the second reading of the clock, and the prediction is the
    last entry of the history. The calls are, in order: features,
    prediction, model information, signature. *)
Theorem generate_prediction_recorded `{PyRuntime}
    (config : Config) (env : collaborators) (self : PredictionEngine)
    (features : ndarray) (dir : Z) (conf : float) :
  emergency_stop self = false ->
  get_latest_features env = Return (Some features) ->
  predict env features = Return (dir, conf) ->
  float_lt conf (CONFIDENCE_THRESHOLD config) = false ->
  0 <= correct_predictions self <= total_predictions self ->
  shape features <> [] ->
  let d := prediction_data_of env dir conf features in
  let after := state_after (generate_prediction config env self) in
  exists r,
    generate_prediction config env self
    = (Return (Some r), record_prediction (datetime_now env 1) r self,
       [get_latest_features_call; predict_call features; get_model_info_call;
        sign_message_call (signing_message d)])
    /\ direction r = dir
    /\ confidence r = conf
    /\ timestamp r = datetime_now env 0
    /\ features_hash r = sha256_hexdigest (tobytes features)
    /\ metadata r !! "total_predictions" = Some (PyInt (total_predictions self))
    /\ metadata r !! "consecutive_losses" = Some (PyInt (consecutive_losses self))
    /\ (exists accuracy,
          running_accuracy self = Return accuracy
          /\ metadata r !! "accuracy" = Some (PyFloat accuracy))
    /\ total_predictions after = total_predictions self + 1
    /\ last_prediction_time after = Some (datetime_now env 1)
    /\ (exists kept, prediction_history after = kept ++ [r]).
Proof.
  intros Hstop Hfeatures Hpredict Hpass Hcounters Hshape d after.
  destruct (running_accuracy_computable self Hcounters) as [accuracy Haccuracy].
  destruct (feature_count_defined features Hshape) as [count Hcount].
  pose proof (create_prediction_result_returns env dir conf features self
                accuracy count Haccuracy Hcount) as Hcreate.
  cbv zeta in Hcreate. fold d in Hcreate.
  pose proof (generate_prediction_accepted config env self features dir conf _ _
                Hstop Hfeatures Hpredict Hpass Hcreate) as Hrun.
  cbn [app] in Hrun. subst after. rewrite Hrun.
  eexists. split; [reflexivity |].
  unfold state_after. cbn [fst snd].
  repeat split.
  - exists accuracy. split; [exact Haccuracy | reflexivity].
  - apply record_prediction_last.
Qed.

Lemma generate_prediction_recorded_witness :
  exists r,
    returned (@generate_prediction sample_runtime sample_config
                (sample_env 0.9 signer_up) two_predictions_engine) = Return (Some r)
    /\ direction r = 1
    /\ metadata r !! "total_predictions" = Some (PyInt 2)
    /\ total_predictions
         (state_after (@generate_prediction sample_runtime sample_config
                         (sample_env 0.9 signer_up) two_predictions_engine)) = 3.
Proof.
  destruct (@generate_prediction_recorded sample_runtime sample_config
              (sample_env 0.9 signer_up) two_predictions_engine sample_features 1 0.9)
    as (r & Hrun & Hdir & _ & _ & _ & Htotal & _ & _ & Hcount & _).
  - reflexivity.
  - reflexivity.
  - reflexivity.
  - reflexivity.
  - cbn. lia.
  - discriminate.
  - exists r. rewrite Hrun. repeat split; assumption.
Defined.

(** ** Failing collaborators *)

(** X4: [generate_prediction] absorbs the failures of its
    collaborators. On an engine that is not stopped: when the feature
    provider answers [None] or raises, the result is [None], the engine
    is unchanged and the classifier is not called; when the classifier
    raises, the result is [None] and the engine is unchanged; and when
    the features are an array without dimensions, the result is [None]
    and the engine is unchanged although the signer was already
    called. *)
Theorem generate_prediction_absorbs_failures `{PyRuntime}
    (config : Config) (env : collaborators) (self : PredictionEngine) :
  emergency_stop self = false ->
  ((forall features, get_latest_features env <> Return (Some features)) ->
   generate_prediction config env self = (Return None, self, [get_latest_features_call]))
  /\ (forall features e,
        get_latest_features env = Return (Some features) ->
        predict env features = Raise e ->
        generate_prediction config env self
        = (Return None, self, [get_latest_features_call; predict_call features]))
  /\ (forall features dir conf,
        get_latest_features env = Return (Some features) ->
        predict env features = Return (dir, conf) ->
        float_lt conf (CONFIDENCE_THRESHOLD config) = false ->
        shape features = [] ->
        generate_prediction config env self
        = (Return None, self,
           [get_latest_features_call; predict_call features; get_model_info_call;
            sign_message_call
              (signing_message (prediction_data_of env dir conf features))])).
Proof.
  intros Hstop. split; [| split].
  - intros Hnone.
    unfold generate_prediction, try_except, bind at 1, gets at 1.
    rewrite Hstop. unfold bind, invoke, ret.
    destruct (get_latest_features env) as [[features |] | e]; try reflexivity.
    exfalso. eapply Hnone. reflexivity.
  - intros features e Hfeatures Hpredict.
    unfold generate_prediction, try_except, bind at 1, gets at 1.
    rewrite Hstop. unfold bind at 1, invoke at 1. rewrite Hfeatures.
    unfold bind, invoke. rewrite Hpredict. reflexivity.
  - intros features dir conf Hfeatures Hpredict Hpass Hshape.
    destruct (create_prediction_result_run env dir conf features self)
      as (res & Hcreate & Hres).
    rewrite (generate_prediction_accepted config env self features dir conf _ _
               Hstop Hfeatures Hpredict Hpass Hcreate).
    destruct res as [r | e]; [| reflexivity].
    exfalso. revert Hcreate.
    unfold _create_prediction_result.
    unfold bind at 1. rewrite get_model_version_run.
    unfold bind at 1. rewrite create_signature_hash_run.
    unfold bind at 1, gets at 1. unfold bind at 1, gets at 1.
    unfold bind at 1. rewrite calculate_accuracy_run.
    destruct (if total_predictions self =? 0 then _ else _) as [accuracy | e];
      [| discriminate].
    unfold bind, lift, ret, ndarray_len. rewrite Hshape. discriminate.
Qed.

Lemma generate_prediction_absorbs_failures_witness :
  @generate_prediction sample_runtime sample_config offline_env PredictionEngine_init
  = (Return None, PredictionEngine_init, [get_latest_features_call]).
Proof.
  destruct (@generate_prediction_absorbs_failures sample_runtime sample_config
              offline_env PredictionEngine_init eq_refl) as (Hnone & _).
  apply Hnone. intros features. discriminate.
Defined.

(** ** Recent predictions *)

Lemma get_recent_predictions_run (limit : Z) (self : PredictionEngine) :
  get_recent_predictions limit self
  = (Return (map display_of (slice_from (- limit) (prediction_history self))), self, []).
Proof. reflexivity. Qed.

Lemma slice_from_last {A : Type} (n : Z) (l : list A) :
  0 < n ->
  slice_from (- n) l = drop (length l - Z.to_nat n) l.
Proof.
  intros Hn. unfold slice_from.
  destruct (Z.ltb_spec (- n) 0); [| lia].
  f_equal. lia.
Qed.

Lemma slice_from_drop {A : Type} (n : Z) (l : list A) :
  0 <= n ->
  slice_from n l = drop (Z.to_nat n) l.
Proof.
  intros Hn. unfold slice_from.
  destruct (Z.ltb_spec n 0); [lia |].
  destruct (Z.le_gt_cases n (Z.of_nat (length l))).
  - f_equal. lia.
  - rewrite !drop_ge by lia. reflexivity.
Qed.

(** X5: for a positive [limit], [get_recent_predictions] returns the
    entries of the last [limit] predictions of the history, oldest
    first, so [min(limit, len(history))] of them, the newest last. It
    leaves the engine unchanged and calls no collaborator. *)
Theorem get_recent_predictions_last (limit : Z) (self : PredictionEngine) :
  0 < limit ->
  let history := prediction_history self in
  exists shown,
    get_recent_predictions limit self = (Return shown, self, [])
    /\ shown = map display_of (drop (length history - Z.to_nat limit) history)
    /\ Z.of_nat (length shown) = Z.min limit (Z.of_nat (length history))
    /\ (forall older newest,
          history = older ++ [newest] ->
          exists before, shown = before ++ [display_of newest]).
Proof.
  intros Hlimit history. eexists.
  rewrite get_recent_predictions_run, slice_from_last by exact Hlimit.
  fold history.
  split; [reflexivity |]. split; [reflexivity |]. split.
  - rewrite length_map, length_drop. lia.
  - intros older newest Hhistory. rewrite Hhistory, length_app. cbn [length].
    rewrite drop_app_le by lia. rewrite map_app. eexists. reflexivity.
Qed.

Lemma get_recent_predictions_last_witness :
  returned (get_recent_predictions 1 two_predictions_engine)
  = Return [display_of down_prediction].
Proof.
  destruct (get_recent_predictions_last 1 two_predictions_engine)
    as (shown & -> & -> & _); [lia | reflexivity].
Defined.

(** X6: a [limit] that is not positive does not give an empty list.
    The slice [history[-limit:]] then starts [-limit] entries from the
    front: [limit = 0] returns the whole history, and a negative
    [limit] returns all but the first [-limit] entries. *)
Theorem get_recent_predictions_nonpositive (limit : Z) (self : PredictionEngine) :
  limit <= 0 ->
  let history := prediction_history self in
  get_recent_predictions limit self
  = (Return (map display_of (drop (Z.to_nat (- limit)) history)), self, [])
  /\ (limit = 0 ->
      get_recent_predictions limit self = (Return (map display_of history), self, [])).
Proof.
  intros Hlimit history.
  rewrite get_recent_predictions_run, slice_from_drop by lia.
  fold history. split; [reflexivity |].
  intros ->. reflexivity.
Qed.

Lemma get_recent_predictions_nonpositive_witness :
  returned (get_recent_predictions 0 two_predictions_engine)
  = Return [display_of up_prediction; display_of down_prediction]
  /\ returned (get_recent_predictions (-1) two_predictions_engine)
     = Return [display_of down_prediction].
Proof.
  split.
  - destruct (get_recent_predictions_nonpositive 0 two_predictions_engine)
      as [_ ->]; [lia | reflexivity | reflexivity].
  - destruct (get_recent_predictions_nonpositive (-1) two_predictions_engine)
      as [-> _]; [lia | reflexivity].
Defined.

Lemma string_length_app (s t : string) :
  String.length (s +:+ t) = (String.length s + String.length t)%nat.
Proof.
  induction s as [| c s IH]; [reflexivity |].
  change (S (String.length (s +:+ t)) = S (String.length s + String.length t)).
  rewrite IH. reflexivity.
Qed.

Lemma substring_length (n : nat) (s : string) :
  String.length (String.substring 0 n s) = Nat.min n (String.length s).
Proof.
  revert s. induction n as [| n IH]; intros [| c s]; cbn; try reflexivity.
  rewrite IH. reflexivity.
Qed.

Lemma substring_prefix (n : nat) (s : string) :
  exists rest, s = String.substring 0 n s +:+ rest.
Proof.
  revert s. induction n as [| n IH]; intros [| c s]; cbn;
    try (eexists; reflexivity).
  destruct (IH s) as [rest Hrest]. exists rest.
  change (String c s = String c (String.substring 0 n s +:+ rest)).
  congruence.
Qed.

(** X7: an entry of [get_recent_predictions] shows the first 16
    characters of the signature hash (all of it when it is shorter)
    followed by three dots, so never more than 19 characters; and its
    direction reads UP exactly for direction 0, DOWN for every other
    integer. *)
Theorem display_of_abridged (pred : PredictionResult) :
  let shown := display_of pred in
  (exists head rest,
     display_signature_hash shown = head +:+ "..."
     /\ signature_hash pred = head +:+ rest
     /\ String.length head = Nat.min 16 (String.length (signature_hash pred)))
  /\ (String.length (display_signature_hash shown) <= 19)%nat
  /\ (display_direction shown = "UP" <-> direction pred = 0)
  /\ (display_direction shown = "DOWN" <-> direction pred <> 0).
Proof.
  cbn. split; [| split; [| split]].
  - destruct (substring_prefix 16 (signature_hash pred)) as [rest Hrest].
    exists (String.substring 0 16 (signature_hash pred)), rest.
    split; [reflexivity |]. split; [exact Hrest | apply substring_length].
  - rewrite string_length_app, substring_length.
    change (String.length "...") with 3%nat. lia.
  - destruct (Z.eqb_spec (direction pred) 0); split; congruence.
  - destruct (Z.eqb_spec (direction pred) 0); split; congruence.
Qed.

(** ** The risk controls of an engine that is never told a round *)

Lemma truediv_zero (b : Z) : 0 < b -> truediv 0 b = Return 0%float.
Proof.
  intros Hb. unfold truediv.
  destruct b as [| b | b]; try lia. reflexivity.
Qed.

(** X1: an engine that only ever runs its own five operations
    ([generate_prediction], [update_prediction_result],
    [manual_override], [reset_emergency_stop], [update_model]) from the
    state [__init__] leaves never scores an outcome: no prediction it
    records carries a [round_id], so every outcome update finds nothing
    and returns without a change. After any such sequence
    [emergency_stop] is false, [consecutive_losses] and
    [correct_predictions] are 0 and the running accuracy is 0.0. *)
Theorem risk_controls_never_engage `{PyRuntime}
    (config : Config) (ops : list operation) :
  let self := run config ops PredictionEngine_init in
  emergency_stop self = false
  /\ consecutive_losses self = 0
  /\ correct_predictions self = 0
  /\ running_accuracy self = Return 0%float
  /\ forall rid actual_outcome,
       update_prediction_result config rid actual_outcome self = (Return tt, self, []).
Proof.
  intros self.
  assert (Hself : never_scored self).
  { apply run_invariant; [apply step_never_scored |].
    repeat split. constructor. }
  assert (Htotal : history_in_step self).
  { apply run_invariant; [apply step_history_in_step |].
    unfold history_in_step. cbn. repeat split; lia. }
  destruct Hself as (Hstop & Hlosses & Hcorrect & Huntagged).
  destruct Htotal as (Htotal & _).
  repeat split; try assumption.
  - unfold running_accuracy, returned. rewrite calculate_accuracy_run. cbn [fst].
    rewrite Hcorrect.
    destruct (Z.eqb_spec (total_predictions self) 0); [reflexivity |].
    apply truediv_zero. lia.
  - intros rid actual_outcome.
    apply update_prediction_result_unmatched, find_prediction_untagged, Huntagged.
Qed.

(** ** Statistics *)

(** X8: on an engine with
    [0 <= correct_predictions <= total_predictions],
    [get_prediction_stats] returns the counters, the stop flag, the
    running accuracy, the ISO text of [last_prediction_time] ([None]
    when there is none) and the model version; it leaves the engine
    unchanged and makes one call, for the model information. The
    accuracy is 0.0 whenever no prediction was counted correct. *)
Theorem get_prediction_stats_reports `{PyRuntime}
    (env : collaborators) (self : PredictionEngine) :
  0 <= correct_predictions self <= total_predictions self ->
  exists accuracy,
    running_accuracy self = Return accuracy
    /\ get_prediction_stats env self
       = (Return {| stats_total_predictions := total_predictions self;
                    stats_correct_predictions := correct_predictions self;
                    stats_accuracy := accuracy;
                    stats_consecutive_losses := consecutive_losses self;
                    stats_emergency_stop := emergency_stop self;
                    stats_last_prediction_time :=
                      option_map isoformat (last_prediction_time self);
                    stats_model_version := model_version_of env |},
          self, [get_model_info_call])
    /\ (correct_predictions self = 0 -> accuracy = 0%float).
Proof.
  intros Hcounters.
  destruct (running_accuracy_computable self Hcounters) as [accuracy Haccuracy].
  exists accuracy. split; [exact Haccuracy |].
  unfold running_accuracy, returned in Haccuracy.
  rewrite calculate_accuracy_run in Haccuracy. cbn [fst] in Haccuracy.
  split.
  - unfold get_prediction_stats.
    unfold bind at 1, gets at 1. unfold bind at 1, gets at 1.
    unfold bind at 1. rewrite calculate_accuracy_run, Haccuracy.
    unfold bind at 1, gets at 1. unfold bind at 1, gets at 1.
    unfold bind at 1, gets at 1.
    unfold bind. rewrite get_model_version_run. reflexivity.
  - intros Hzero. rewrite Hzero in Haccuracy.
    destruct (Z.eqb_spec (total_predictions self) 0); [congruence |].
    rewrite truediv_zero in Haccuracy by lia. congruence.
Qed.

Lemma get_prediction_stats_reports_witness :
  exists stats,
    returned (@get_prediction_stats sample_runtime (sample_env 0.9 signer_up)
                two_predictions_engine) = Return stats
    /\ stats_total_predictions stats = 2
    /\ stats_accuracy stats = 0%float
    /\ stats_last_prediction_time stats = Some "2024-01-01T00:20:00"
    /\ stats_model_version stats = "v1.0_1234".
Proof.
  destruct (@get_prediction_stats_reports sample_runtime (sample_env 0.9 signer_up)
              two_predictions_engine)
    as (accuracy & _ & Hrun & Hzero); [cbn; lia |].
  eexists. rewrite Hrun. split; [reflexivity |].
  repeat split. cbn. apply Hzero. reflexivity.
Defined.

(** ** Health *)

(** X9: [health_check] answers [True] exactly when the model
    trainer, the data collector and the blockchain interface each
    answer [True] and the engine is not stopped. The three are probed
    in that order and the first one that fails or raises ends the
    check; the stop flag is read last, so a stopped engine still probes
    all three. *)
Theorem health_check_verdict (probes : health_probes) (self : PredictionEngine) :
  let healthy := (health_check probes self).1 in
  let probed := (health_check probes self).2 in
  (healthy = true <->
     model_trainer_health_check probes = Return true
     /\ data_collector_health_check probes = Return true
     /\ blockchain_interface_health_check probes = Return true
     /\ emergency_stop self = false)
  /\ (model_trainer_health_check probes <> Return true ->
      probed = [model_trainer_health_call])
  /\ (model_trainer_health_check probes = Return true ->
      data_collector_health_check probes <> Return true ->
      probed = [model_trainer_health_call; data_collector_health_call])
  /\ (model_trainer_health_check probes = Return true ->
      data_collector_health_check probes = Return true ->
      probed = [model_trainer_health_call; data_collector_health_call;
                blockchain_interface_health_call]).
Proof.
  unfold health_check.
  destruct (model_trainer_health_check probes) as [[|] | e1],
    (data_collector_health_check probes) as [[|] | e2],
    (blockchain_interface_health_check probes) as [[|] | e3],
    (emergency_stop self);
    cbn; intuition congruence.
Qed.

(** ** Manual override with a negative dimension *)

(** X10: when [SEQUENCE_LENGTH] or [FEATURE_COUNT] is negative,
    [manual_override] returns [None], leaves the engine unchanged and
    calls no collaborator: drawing the placeholder features raises and
    the method absorbs it. [validate_config] lets a negative
    [FEATURE_COUNT] through: it never reads that option, so its verdict
    on a configuration is the same with any other [FEATURE_COUNT]. *)
Theorem manual_override_negative_dimension `{PyRuntime}
    (config : Config) (env : collaborators) (dir : Z) (conf : float)
    (self : PredictionEngine) :
  SEQUENCE_LENGTH config < 0 \/ FEATURE_COUNT config < 0 ->
  manual_override config env dir conf self = (Return None, self, [])
  /\ (forall count,
        validate_config (with_FEATURE_COUNT count config) = validate_config config).
Proof.
  intros Hnegative. split.
  - unfold manual_override, try_except, bind, lift, np_random_random.
    cbn [existsb].
    destruct (Z.ltb_spec (SEQUENCE_LENGTH config) 0); [reflexivity |].
    destruct (Z.ltb_spec (FEATURE_COUNT config) 0); [reflexivity | lia].
  - intros count. reflexivity.
Qed.

Lemma manual_override_negative_dimension_witness :
  FEATURE_COUNT negative_features_config < 0
  /\ validate_config negative_features_config = Return tt
  /\ @manual_override sample_runtime negative_features_config
       (sample_env 0.9 signer_up) 0 0.9 PredictionEngine_init
     = (Return None, PredictionEngine_init, []).
Proof.
  destruct (@manual_override_negative_dimension sample_runtime negative_features_config
              (sample_env 0.9 signer_up) 0 0.9 PredictionEngine_init)
    as [Hrun Hvalidate].
  - right. reflexivity.
  - split; [reflexivity |].
    split; [| exact Hrun].
    rewrite <- (Hvalidate 20). reflexivity.
Defined.

(** ** Reloading and resetting *)

(** X11: when [load_model] answers [False] or raises,
    [update_model] returns normally and changes nothing: a stopped
    engine stays stopped and the count of losses stays. *)
Theorem update_model_not_reloaded (env : collaborators) (self : PredictionEngine) :
  load_model env <> Return true ->
  update_model env self = (Return tt, self, [load_model_call]).
Proof.
  intros Hload.
  unfold update_model, try_except, bind, invoke, modify, ret.
  destruct (load_model env) as [[|] | e]; [contradiction | reflexivity | reflexivity].
Qed.

Lemma update_model_not_reloaded_witness :
  update_model offline_env halted_engine = (Return tt, halted_engine, [load_model_call])
  /\ emergency_stop halted_engine = true.
Proof.
  split; [| reflexivity].
  apply update_model_not_reloaded. discriminate.
Defined.

(** X12: [reset_emergency_stop] clears the stop flag and the count
    of consecutive losses and nothing else: the two counters, the
    history and the time of the last prediction stay. It calls no
    collaborator, applying it twice is the same as once, and it leaves
    the engine exactly as a successful [update_model] does. *)
Theorem reset_emergency_stop_effect (self : PredictionEngine) :
  let self' := state_after (reset_emergency_stop self) in
  reset_emergency_stop self = (Return tt, self', [])
  /\ emergency_stop self' = false
  /\ consecutive_losses self' = 0
  /\ total_predictions self' = total_predictions self
  /\ correct_predictions self' = correct_predictions self
  /\ prediction_history self' = prediction_history self
  /\ last_prediction_time self' = last_prediction_time self
  /\ state_after (reset_emergency_stop self') = self'
  /\ (forall env, load_model env = Return true ->
        state_after (update_model env self) = self').
Proof.
  repeat split.
  intros env Hload. rewrite update_model_state, Hload. reflexivity.
Qed.

(** ** The version tag *)

(** X13: [_get_model_version] never raises and calls the model
    trainer once. It returns [v1.0_unknown] when [get_model_info]
    raises, [v1.0_0] when the information has no [parameters] entry (as
    for a model that is not trained), and [v1.0_] followed by the
    count when [parameters] is an integer. *)
Theorem get_model_version_cases `{PyRuntime}
    (env : collaborators) (self : PredictionEngine) :
  (exists version,
     _get_model_version env self = (Return version, self, [get_model_info_call]))
  /\ (forall e,
        get_model_info env = Raise e ->
        returned (_get_model_version env self) = Return "v1.0_unknown")
  /\ (forall model_info,
        get_model_info env = Return model_info ->
        model_info !! "parameters" = None ->
        returned (_get_model_version env self) = Return "v1.0_0")
  /\ (forall model_info n,
        get_model_info env = Return model_info ->
        model_info !! "parameters" = Some (PyInt n) ->
        returned (_get_model_version env self) = Return ("v1.0_" +:+ str_int n)).
Proof.
  rewrite get_model_version_run. unfold model_version_of, returned. cbn [fst].
  split; [eexists; reflexivity |].
  split; [| split].
  - intros e ->. reflexivity.
  - intros model_info -> ->. reflexivity.
  - intros model_info n -> ->. reflexivity.
Qed.

(** ** The order of floats *)

(** Comparison of floats is comparison of their specifications, which
    orders the numbers by sign, then exponent, then mantissa. Only a NaN
    escapes the order: a float that is neither below [t] nor above some
    [x < t] is a NaN. *)

Ltac split_compare :=
  repeat match goal with
         | H : context [Z.compare ?a ?b] |- _ => destruct (Z.compare_spec a b)
         | H : context [Pos.compare_cont Eq ?a ?b] |- _ =>
             change (Pos.compare_cont Eq a b) with (Pos.compare a b) in H;
             destruct (Pos.compare_spec a b)
         end.

Lemma SFltb_squeeze (x c t : spec_float) :
  SFltb x t = true -> SFltb c t = false -> SFltb x c = false -> c = S754_nan.
Proof.
  unfold SFltb.
  destruct x as [sx | sx | | sx mx ex], c as [sc | sc | | sc mc ec],
    t as [st | st | | st mt et];
    try reflexivity; cbn;
    repeat match goal with s : bool |- _ => destruct s end;
    cbn; try discriminate;
    intros Hxt Hct Hxc; split_compare;
    cbn in *; try discriminate; try lia.
Qed.

Lemma float_lt_squeeze (x c t : float) :
  float_lt x t = true -> float_lt c t = false -> float_lt x c = false ->
  PrimFloat.is_nan c = true.
Proof.
  unfold float_lt. rewrite !FloatAxioms.ltb_spec. intros Hxt Hct Hxc.
  pose proof (SFltb_squeeze _ _ _ Hxt Hct Hxc) as Hnan.
  unfold PrimFloat.is_nan. rewrite FloatAxioms.eqb_spec, Hnan. reflexivity.
Qed.

(** ** The classifier *)

#[local] Open Scope result_scope.

Lemma and_then_returns {A B : Type} (r : result A) (k : A -> result B) (b : B) :
  and_then r k = Return b -> exists a, r = Return a /\ k a = Return b.
Proof. destruct r as [a | e]; [eexists; split; [reflexivity | assumption] | discriminate]. Qed.

(** What [ModelTrainer.predict] returns is a probability read off the
    network, with the class it falls in. *)
Lemma ModelTrainer_predict_returns `{Numpy}
    (self : ModelTrainer) (features : ndarray) (dir : Z) (conf : float) :
  ModelTrainer_predict self features = Return (dir, conf) ->
  dir = Z.b2z (float_gt conf 0.5)
  /\ is_trained self = true
  /\ (exists network scaler input row output,
        model self = Some network
        /\ feature_scaler self = Some scaler
        /\ keras_predict network input = Return output
        /\ getitem output 0 = Return row
        /\ getitem row 0 = Return conf).
Proof.
  unfold ModelTrainer_predict.
  destruct (is_trained self); [| discriminate].
  destruct (model self) as [network |]; [| discriminate].
  destruct (feature_scaler self) as [scaler |]; [| discriminate].
  intros Hrun.
  apply and_then_returns in Hrun as (features' & _ & Hrun).
  apply and_then_returns in Hrun as (columns & _ & Hrun).
  apply and_then_returns in Hrun as (flat & _ & Hrun).
  apply and_then_returns in Hrun as (scaled & _ & Hrun).
  apply and_then_returns in Hrun as (input & _ & Hrun).
  apply and_then_returns in Hrun as (output & Houtput & Hrun).
  apply and_then_returns in Hrun as (row & Hrow & Hrun).
  apply and_then_returns in Hrun as (prob & Hprob & Hrun).
  injection Hrun as <- <-.
  split; [reflexivity |]. split; [reflexivity |].
  exists network, scaler, input, row, output. repeat split; assumption.
Qed.

(** X14: [ModelTrainer.predict] raises [ValueError] without calling the
    network when the trainer is not trained, has no model or has no
    scaler. When it returns, the confidence is the probability that the
    network gave, as it is, and the direction is 1 exactly when that
    probability is above 0.5, otherwise 0: a probability that is not
    above 0.5, a NaN included, is direction 0 with that same
    probability as its confidence. *)
Theorem ModelTrainer_predict_class `{Numpy} (self : ModelTrainer) (features : ndarray) :
  (is_trained self = false \/ model self = None ->
   ModelTrainer_predict self features = Raise (ValueError "Model not trained"))
  /\ (is_trained self = true -> model self <> None -> feature_scaler self = None ->
      ModelTrainer_predict self features
      = Raise (ValueError "Feature scaler not available"))
  /\ (forall dir conf,
        ModelTrainer_predict self features = Return (dir, conf) ->
        (dir = 1 <-> float_gt conf 0.5 = true)
        /\ (dir = 0 <-> float_gt conf 0.5 = false)
        /\ exists network input row output,
             model self = Some network
             /\ keras_predict network input = Return output
             /\ getitem output 0 = Return row
             /\ getitem row 0 = Return conf).
Proof.
  split; [| split].
  - unfold ModelTrainer_predict.
    intros [-> | ->]; [reflexivity | destruct (is_trained self); reflexivity].
  - unfold ModelTrainer_predict. intros -> Hmodel ->.
    destruct (model self); [reflexivity | contradiction].
  - intros dir conf Hrun.
    apply ModelTrainer_predict_returns in Hrun
      as (-> & _ & network & scaler & input & row & output & Hmodel & _ & Hrest).
    split; [| split].
    + destruct (float_gt conf 0.5); cbn; intuition congruence.
    + destruct (float_gt conf 0.5); cbn; intuition congruence.
    + exists network, input, row, output. tauto.
Qed.

(** ** The directions that pass the threshold *)

(** A prediction returned by [generate_prediction] is one that the
    classifier gave and the threshold let through. *)
Lemma generate_prediction_returned `{PyRuntime}
    (config : Config) (env : collaborators) (self : PredictionEngine)
    (r : PredictionResult) :
  returned (generate_prediction config env self) = Return (Some r) ->
  emergency_stop self = false
  /\ exists features,
       get_latest_features env = Return (Some features)
       /\ predict env features = Return (direction r, confidence r)
       /\ float_lt (confidence r) (CONFIDENCE_THRESHOLD config) = false.
Proof.
  unfold generate_prediction, try_except, bind at 1, gets at 1.
  destruct (emergency_stop self); [discriminate |].
  unfold bind at 1, invoke at 1.
  destruct (get_latest_features env) as [[features |] | e]; try discriminate.
  unfold bind at 1, invoke at 1.
  destruct (predict env features) as [[dir conf] | e] eqn:Hpredict; [| discriminate].
  destruct (float_lt conf (CONFIDENCE_THRESHOLD config)) eqn:Hpass; [discriminate |].
  destruct (create_prediction_result_run env dir conf features self)
    as (res & Hcreate & Hres).
  unfold bind at 1. rewrite Hcreate.
  destruct res as [r' | e]; [| discriminate].
  destruct (Hres r' eq_refl) as (Hdir & Hconf & _).
  unfold bind, modify, gets, ret, returned.
  cbn -[Nat.ltb slice_last length].
  destruct (100 <? length (prediction_history self ++ [r']))%nat;
    cbn; intros [= <-]; (split; [reflexivity |]);
    exists features; rewrite Hdir, Hconf; repeat split; first [reflexivity | assumption].
Qed.

(** X15: with [ModelTrainer.predict] as the classifier and a
    [CONFIDENCE_THRESHOLD] above 0.5 (the default is 0.6), every
    prediction that [generate_prediction] returns has direction 1, with
    a confidence above 0.5 and not below the threshold. Direction 0 is
    returned only with a NaN for confidence: a probability that is not
    above 0.5 is direction 0 and falls below the threshold. *)
Theorem direction_zero_never_passes `{PyRuntime} `{Numpy}
    (config : Config) (env : collaborators) (trainer : ModelTrainer)
    (self : PredictionEngine) (r : PredictionResult) :
  predict env = ModelTrainer_predict trainer ->
  float_lt 0.5 (CONFIDENCE_THRESHOLD config) = true ->
  returned (generate_prediction config env self) = Return (Some r) ->
  (direction r = 1
   /\ float_gt (confidence r) 0.5 = true
   /\ float_lt (confidence r) (CONFIDENCE_THRESHOLD config) = false)
  \/ (direction r = 0 /\ PrimFloat.is_nan (confidence r) = true).
Proof.
  intros Hclassifier Hthreshold Hreturned.
  apply generate_prediction_returned in Hreturned
    as (_ & features & _ & Hpredict & Hpass).
  rewrite Hclassifier in Hpredict.
  apply ModelTrainer_predict_returns in Hpredict as (Hdir & _).
  rewrite Hdir.
  destruct (float_gt (confidence r) 0.5) eqn:Hhalf; cbn.
  - left. repeat split. exact Hpass.
  - right. split; [reflexivity |].
    exact (float_lt_squeeze _ _ _ Hthreshold Hpass Hhalf).
Qed.

Lemma direction_zero_never_passes_witness :
  exists r,
    returned (@generate_prediction sample_runtime sample_config
                (@trainer_env sample_numpy (trained_trainer 0.9))
                PredictionEngine_init) = Return (Some r)
    /\ direction r = 1
    /\ returned (@generate_prediction sample_runtime sample_config
                   (@trainer_env sample_numpy (trained_trainer 0.1))
                   PredictionEngine_init) = Return None.
Proof.
  eexists. split; [vm_compute; reflexivity |].
  split; [| vm_compute; reflexivity].
  destruct (@direction_zero_never_passes sample_runtime sample_numpy sample_config
              (@trainer_env sample_numpy (trained_trainer 0.9))
              (trained_trainer 0.9) PredictionEngine_init _
              eq_refl eq_refl eq_refl) as [(Hdir & _) | (Hdir & _)].
  - exact Hdir.
  - discriminate Hdir.
Defined.

(** ** Loading the model *)

(** X16: [ModelTrainer.load_model] answers [True] exactly when the model
    file exists and loads and the file of the scaler, if it exists,
    loads too. When the model file is missing or does not load, the
    trainer is unchanged. When it loads, the trainer is marked trained
    and holds the new network whatever the answer: a scaler file that
    fails to load gives [False] on a trainer that was nevertheless
    changed, and a missing scaler file gives [True] with the scaler the
    trainer had before. *)
Theorem ModelTrainer_load_model_verdict (files : model_files) (self : ModelTrainer) :
  let loaded := (ModelTrainer_load_model files self).1 in
  let self' := (ModelTrainer_load_model files self).2 in
  (loaded = true <->
     (exists network, model_file files = Some (Return network))
     /\ (forall e, scaler_file files <> Some (Raise e)))
  /\ ((forall network, model_file files <> Some (Return network)) -> self' = self)
  /\ (forall network,
        model_file files = Some (Return network) ->
        is_trained self' = true
        /\ model self' = Some network
        /\ feature_scaler self'
           = match scaler_file files with
             | Some (Return scaler) => Some scaler
             | _ => feature_scaler self
             end).
Proof.
  unfold ModelTrainer_load_model.
  destruct (model_file files) as [[network | e] |],
    (scaler_file files) as [[scaler | e'] |]; cbn;
    (split; [| split]);
    try (intros network' [= <-]; repeat split);
    try (intros Hnone; first [reflexivity | exfalso; eapply Hnone; reflexivity]);
    try (split; [discriminate | intros [[network' Hnetwork] Hscaler]; try discriminate;
                                exfalso; eapply Hscaler; reflexivity]);
    try (split; [intros _; split; [eexists; reflexivity | discriminate] | reflexivity]);
    try discriminate.
Qed.

(** X17: a trainer without a scaler that loads a model whose scaler
    file is missing answers [True], passes the check of
    [PredictionEngine.initialize] and passes its own health check
    whenever the network answers the placeholder input; yet its
    [predict] raises [ValueError] on every input, so an engine that
    uses it never returns a prediction. *)
Theorem load_model_without_scaler `{PyRuntime} `{Numpy}
    (config : Config) (files : model_files) (self : ModelTrainer)
    (network : Sequential) :
  model_file files = Some (Return network) ->
  scaler_file files = None ->
  feature_scaler self = None ->
  let loaded := (ModelTrainer_load_model files self).1 in
  let trainer := (ModelTrainer_load_model files self).2 in
  loaded = true
  /\ initialize trainer = Return tt
  /\ (forall env dummy_input output,
        np_random_random env [1; SEQUENCE_LENGTH config; FEATURE_COUNT config]
        = Return dummy_input ->
        keras_predict network dummy_input = Return output ->
        ModelTrainer_health_check config env trainer = true)
  /\ (forall features,
        ModelTrainer_predict trainer features
        = Raise (ValueError "Feature scaler not available"))
  /\ (forall env engine,
        predict env = ModelTrainer_predict trainer ->
        returned (generate_prediction config env engine) = Return None).
Proof.
  intros Hmodel Hscaler Hnone loaded trainer.
  assert (Htrainer : trainer
                     = {| model := Some network; feature_scaler := None;
                          is_trained := true |}).
  { subst trainer. unfold ModelTrainer_load_model.
    rewrite Hmodel, Hscaler, Hnone. reflexivity. }
  assert (Hloaded : loaded = true).
  { subst loaded. unfold ModelTrainer_load_model.
    rewrite Hmodel, Hscaler. reflexivity. }
  clearbody trainer loaded. subst trainer.
  split; [exact Hloaded |]. split; [reflexivity |].
  split; [| split].
  - intros env dummy_input output Hdraw Hanswer.
    unfold ModelTrainer_health_check. cbn [is_trained model].
    rewrite Hdraw. cbn [and_then]. rewrite Hanswer. reflexivity.
  - reflexivity.
  - intros env engine Hclassifier.
    destruct (generate_prediction_cases config env engine)
      as [(calls & Hrun) | (r & calls & Hrun & _)];
      [rewrite Hrun; reflexivity |].
    assert (Hreturned : returned (generate_prediction config env engine)
                        = Return (Some r)) by (rewrite Hrun; reflexivity).
    apply generate_prediction_returned in Hreturned
      as (_ & features & _ & Hpredict & _).
    rewrite Hclassifier in Hpredict. discriminate Hpredict.
Qed.

Lemma load_model_without_scaler_witness :
  (ModelTrainer_load_model files_without_scaler ModelTrainer_init).1 = true
  /\ returned
       (@generate_prediction sample_runtime sample_config
          (@trainer_env sample_numpy
             (ModelTrainer_load_model files_without_scaler ModelTrainer_init).2)
          PredictionEngine_init)
     = Return None.
Proof.
  destruct (@load_model_without_scaler sample_runtime sample_numpy sample_config
              files_without_scaler ModelTrainer_init (constant_network 0.9)
              eq_refl eq_refl eq_refl)
    as (Hloaded & _ & _ & _ & Hengine).
  split; [exact Hloaded |].
  apply Hengine. reflexivity.
Defined.

(** ** Training sequences *)

Lemma slice_window {A : Type} (k n : nat) (l : list A) :
  (k + n <= length l)%nat ->
  slice (Z.of_nat k) (Z.of_nat k + Z.of_nat n) l = take n (drop k l).
Proof.
  intros Hbound. unfold slice.
  destruct (Z.ltb_spec (Z.of_nat k) 0); [lia |].
  destruct (Z.ltb_spec (Z.of_nat k + Z.of_nat n) 0); [lia |].
  f_equal; [lia | f_equal; lia].
Qed.

Lemma getitem_lookup {A : Type} (l : list A) (i : nat) (a : A) :
  l !! i = Some a -> getitem l (Z.of_nat i) = Return a.
Proof.
  intros Hlookup.
  assert (Hsign : (Z.of_nat i <? 0) = false) by (apply Z.ltb_ge; lia).
  unfold getitem. cbv zeta. rewrite Hsign. cbv iota. rewrite Hsign.
  rewrite Nat2Z.id, Hlookup. reflexivity.
Qed.

Lemma getitem_out_of_range {A : Type} (l : list A) (i : nat) :
  (length l <= i)%nat -> is_raise (getitem l (Z.of_nat i)) = true.
Proof.
  intros Hbound.
  assert (Hsign : (Z.of_nat i <? 0) = false) by (apply Z.ltb_ge; lia).
  unfold getitem. cbv zeta. rewrite Hsign. cbv iota. rewrite Hsign.
  rewrite Nat2Z.id, lookup_ge_None_2 by exact Hbound. reflexivity.
Qed.

(** The loop of [_create_sequences] after its first [c] rounds. *)
Lemma create_sequences_rounds {A B : Type}
    (config : Config) (features : list A) (targets : list B) (c : nat) :
  0 <= SEQUENCE_LENGTH config ->
  let n := Z.to_nat (SEQUENCE_LENGTH config) in
  (c + n <= length features)%nat ->
  (c + n <= length targets)%nat ->
  foldl
    (fun acc i =>
       and_then acc (fun '(X, y) =>
         and_then (getitem targets i) (fun target =>
           Return (X ++ [slice (i - SEQUENCE_LENGTH config) i features],
                   y ++ [target]))))
    (Return ([], []))
    (seqZ (SEQUENCE_LENGTH config) (Z.of_nat c))
  = Return (map (fun k => take n (drop k features)) (seq 0 c),
            take c (drop n targets)).
Proof.
  intros Hseq n. induction c as [| c IH]; intros Hfeatures Htargets.
  - rewrite take_0. reflexivity.
  - replace (Z.of_nat (S c)) with (Z.of_nat c + 1) by lia.
    rewrite seqZ_app by lia. rewrite foldl_app, IH by lia.
    change (seqZ (SEQUENCE_LENGTH config + Z.of_nat c) 1)
      with [Z.of_nat 0 + (SEQUENCE_LENGTH config + Z.of_nat c)].
    cbn [foldl and_then].
    destruct (lookup_lt_is_Some_2 targets (c + n)) as [target Htarget]; [lia |].
    replace (Z.of_nat 0 + (SEQUENCE_LENGTH config + Z.of_nat c))
      with (Z.of_nat (c + n)) by lia.
    rewrite (getitem_lookup _ _ _ Htarget). cbn [and_then].
    replace (Z.of_nat (c + n) - SEQUENCE_LENGTH config) with (Z.of_nat c) by lia.
    replace (Z.of_nat (c + n)) with (Z.of_nat c + Z.of_nat n) by lia.
    rewrite slice_window by lia.
    rewrite seq_S, map_app. cbn [map Nat.add].
    erewrite take_S_r; [reflexivity |].
    rewrite lookup_drop, Nat.add_comm. exact Htarget.
Qed.

(** X18: with a [SEQUENCE_LENGTH] [n] that is not negative and at least
    as many targets as rows, [_create_sequences] builds
    [max(len(features) - n, 0)] pairs: the [k]-th window holds the [n]
    rows [k .. k+n-1] and its target is the target of row [k+n], the
    row after the window. Every window has exactly [n] rows, and no
    pair at all is built from [n] rows or fewer. *)
Theorem create_sequences_windows {A B : Type}
    (config : Config) (features : list A) (targets : list B) :
  0 <= SEQUENCE_LENGTH config ->
  (length features <= length targets)%nat ->
  let n := Z.to_nat (SEQUENCE_LENGTH config) in
  let count := (length features - n)%nat in
  exists X y,
    _create_sequences config features targets = Return (X, y)
    /\ X = map (fun k => take n (drop k features)) (seq 0 count)
    /\ y = take count (drop n targets)
    /\ length X = count
    /\ length y = count
    /\ Forall (fun window => length window = n) X
    /\ (forall k window,
          X !! k = Some window ->
          y !! k = targets !! (k + n)%nat
          /\ forall j, (j < n)%nat -> window !! j = features !! (k + j)%nat).
Proof.
  intros Hseq Htargets n count.
  exists (map (fun k => take n (drop k features)) (seq 0 count)),
    (take count (drop n targets)).
  split; [| split; [reflexivity |]].
  - unfold _create_sequences, range.
    destruct (Nat.le_gt_cases (length features) n) as [Hshort | Hlong].
    + replace count with 0%nat by lia.
      rewrite take_0. unfold seqZ.
      replace (Z.to_nat (Z.of_nat (length features) - SEQUENCE_LENGTH config))
        with 0%nat by lia.
      reflexivity.
    + replace (Z.of_nat (length features) - SEQUENCE_LENGTH config)
        with (Z.of_nat count) by lia.
      apply create_sequences_rounds; fold n; lia.
  - split; [reflexivity |].
    split; [rewrite length_map, length_seq; reflexivity |].
    split; [rewrite length_take, length_drop; lia |].
    split.
    + apply Forall_forall. intros window Hin.
      apply list_elem_of_fmap in Hin as (k & -> & Hk).
      apply elem_of_seq in Hk.
      rewrite length_take, length_drop. lia.
    + intros k window Hwindow.
      apply list_lookup_fmap_Some in Hwindow as (k' & -> & Hk').
      apply lookup_seq in Hk' as [-> Hk]. cbn [Nat.add].
      split.
      * rewrite lookup_take_lt by exact Hk. rewrite lookup_drop.
        f_equal. lia.
      * intros j Hj. rewrite lookup_take_lt by exact Hj. apply lookup_drop.
Qed.

Lemma create_sequences_windows_witness :
  _create_sequences short_config [10; 11; 12; 13; 14] [0; 1; 0; 1; 1]
  = Return ([[10; 11; 12]; [11; 12; 13]], [1; 1]).
Proof.
  destruct (create_sequences_windows short_config [10; 11; 12; 13; 14] [0; 1; 0; 1; 1])
    as (X & y & -> & -> & -> & _); [cbn; lia | cbn; lia | reflexivity].
Defined.

(** ** Training targets *)

Lemma float_gt_nan (x : float) : float_gt PrimFloat.nan x = false.
Proof.
  unfold float_gt. rewrite FloatAxioms.ltb_spec.
  change (Prim2SF PrimFloat.nan) with S754_nan.
  unfold SFltb. destruct (Prim2SF x); reflexivity.
Qed.

Lemma prepare_targets_all (config : Config) (close : list float) :
  prepare_targets config close = price_direction config close.
Proof.
  unfold prepare_targets.
  induction (price_direction config close) as [| d l IH]; [reflexivity |].
  rewrite filter_cons_True by reflexivity. rewrite IH. reflexivity.
Qed.

Lemma price_direction_lookup (config : Config) (close : list float) (i : nat) (now : float) :
  close !! i = Some now ->
  price_direction config close !! i
  = Some (Z.b2z (float_gt
                   (let j := Z.of_nat i + PREDICTION_HORIZON config in
                    if j <? 0 then PrimFloat.nan
                    else default PrimFloat.nan (close !! Z.to_nat j))
                   now)).
Proof.
  intros Hnow. unfold price_direction, future_close.
  rewrite lookup_zip_with, list_lookup_imap, Hnow. reflexivity.
Qed.

(** X19: the targets that [prepare_data] computes, for a
    [PREDICTION_HORIZON] [h] that is not negative. There is one target
    per row: the filter on missing targets removes nothing, since the
    comparison with a missing future price is false and its integer is
    0. The target of a row whose price [h] rows later is known is 1
    exactly when that later price is above the price of the row; the
    target of each of the last [h] rows is 0 whatever the prices. *)
Theorem price_direction_labels (config : Config) (close : list float) :
  0 <= PREDICTION_HORIZON config ->
  let h := Z.to_nat (PREDICTION_HORIZON config) in
  let targets := prepare_targets config close in
  length targets = length close
  /\ (forall i now future,
        close !! i = Some now ->
        close !! (i + h)%nat = Some future ->
        targets !! i = Some (Z.b2z (float_gt future now)))
  /\ (forall i,
        (i < length close)%nat ->
        (length close <= i + h)%nat ->
        targets !! i = Some 0).
Proof.
  intros Hhorizon h targets. subst targets.
  rewrite prepare_targets_all.
  split; [| split].
  - unfold price_direction, future_close.
    rewrite length_zip_with, length_imap. lia.
  - intros i now future Hnow Hfuture.
    rewrite (price_direction_lookup _ _ _ _ Hnow). cbv zeta.
    destruct (Z.ltb_spec (Z.of_nat i + PREDICTION_HORIZON config) 0); [lia |].
    replace (Z.to_nat (Z.of_nat i + PREDICTION_HORIZON config)) with (i + h)%nat by lia.
    rewrite Hfuture. reflexivity.
  - intros i Hi Hlast.
    destruct (lookup_lt_is_Some_2 close i Hi) as [now Hnow].
    rewrite (price_direction_lookup _ _ _ _ Hnow). cbv zeta.
    destruct (Z.ltb_spec (Z.of_nat i + PREDICTION_HORIZON config) 0); [lia |].
    rewrite lookup_ge_None_2 by lia. cbn [default].
    rewrite float_gt_nan. reflexivity.
Qed.

Lemma price_direction_labels_witness :
  prepare_targets short_config [1.0; 2.0; 3.0; 2.5; 4.0]%float !! 0%nat = Some 1
  /\ prepare_targets short_config [1.0; 2.0; 3.0; 2.5; 4.0]%float !! 4%nat = Some 0
  /\ length (prepare_targets short_config [1.0; 2.0; 3.0; 2.5; 4.0]%float) = 5%nat.
Proof.
  destruct (price_direction_labels short_config [1.0; 2.0; 3.0; 2.5; 4.0]%float)
    as (Hlength & Hknown & Hlast); [cbn; lia |].
  split; [| split].
  - exact (Hknown 0%nat 1.0%float 3.0%float eq_refl eq_refl).
  - apply Hlast; cbn; lia.
  - exact Hlength.
Defined.

(** ** The signer of the chain *)

(** X20: with [BlockchainInterface.sign_message] as the signer of the
    engine, [_create_signature_hash] always returns the digest of what
    the signer answered, which is the empty string when the key could
    not sign: its own fallback, the digest of [str(prediction_data)], is
    never taken. So while the key does not sign, every prediction that
    [generate_prediction] returns carries the same signature hash, the
    digest of the empty string. *)
Theorem chain_signer_never_falls_back `{PyRuntime}
    (env : collaborators) (w3 : web3) :
  sign_message env = BlockchainInterface_sign_message w3 ->
  (forall d self,
     returned (_create_signature_hash env d self)
     = Return (sha256_hexdigest
                 match sign_defunct w3 (signing_message d) with
                 | Return signature => signature
                 | Raise _ => ""
                 end))
  /\ ((forall message, is_raise (sign_defunct w3 message) = true) ->
      forall config self r,
        returned (generate_prediction config env self) = Return (Some r) ->
        signature_hash r = sha256_hexdigest "").
Proof.
  intros Hsigner.
  assert (Hhash : forall d self,
             returned (_create_signature_hash env d self)
             = Return (sha256_hexdigest
                         match sign_defunct w3 (signing_message d) with
                         | Return signature => signature
                         | Raise _ => ""
                         end)).
  { intros d self. unfold returned. rewrite create_signature_hash_run.
    cbn [fst]. rewrite Hsigner. unfold BlockchainInterface_sign_message.
    destruct (sign_defunct w3 (signing_message d)); reflexivity. }
  split; [exact Hhash |].
  intros Hkey config self r.
  unfold generate_prediction, try_except, bind at 1, gets at 1.
  destruct (emergency_stop self); [discriminate |].
  unfold bind at 1, invoke at 1.
  destruct (get_latest_features env) as [[features |] | e]; try discriminate.
  unfold bind at 1, invoke at 1.
  destruct (predict env features) as [[dir conf] | e]; [| discriminate].
  destruct (float_lt conf (CONFIDENCE_THRESHOLD config)); [discriminate |].
  destruct (create_prediction_result_run env dir conf features self)
    as (res & Hcreate & Hres).
  unfold bind at 1. rewrite Hcreate.
  destruct res as [r' | e]; [| discriminate].
  destruct (Hres r' eq_refl) as (_ & _ & _ & Hsignature & _).
  rewrite Hhash in Hsignature.
  specialize (Hkey (signing_message (prediction_data_of env dir conf features))).
  destruct (sign_defunct w3 _); [discriminate Hkey |].
  injection Hsignature as Hsignature.
  unfold bind, modify, gets, ret, returned.
  cbn -[Nat.ltb slice_last length].
  destruct (100 <? length (prediction_history self ++ [r']))%nat;
    cbn; intros [= <-]; exact Hsignature.
Qed.

Lemma chain_signer_never_falls_back_witness :
  exists r,
    returned (@generate_prediction sample_runtime sample_config
                (chain_env sample_web3) PredictionEngine_init) = Return (Some r)
    /\ signature_hash r = @sha256_hexdigest sample_runtime "".
Proof.
  eexists. split; [vm_compute; reflexivity |].
  destruct (@chain_signer_never_falls_back sample_runtime
              (chain_env sample_web3) sample_web3 eq_refl) as [_ Hdigest].
  apply (Hdigest (fun _ => eq_refl) sample_config PredictionEngine_init).
  vm_compute. reflexivity.
Defined.

(** ** Creating a round *)

Lemma signature_bytes32 (decoded : list Byte.byte) :
  (if (length decoded =? 32)%nat then decoded else ljust 32 (take 32 decoded))
  = bytes32 decoded.
Proof.
  unfold bytes32, ljust.
  destruct (Nat.eqb_spec (length decoded) 32) as [Hlength | Hlength].
  - rewrite take_app_length'; [reflexivity | symmetry; exact Hlength].
  - destruct (Nat.le_gt_cases (length decoded) 32) as [Hshort | Hlong].
    + rewrite (take_ge decoded) by exact Hshort.
      rewrite take_app_ge by exact Hshort.
      rewrite take_replicate. do 2 f_equal. lia.
    + rewrite take_app_le by lia.
      rewrite length_take_le by lia.
      rewrite Nat.sub_diag. apply app_nil_r.
Qed.

Lemma bytes32_length (decoded : list Byte.byte) : length (bytes32 decoded) = 32%nat.
Proof.
  unfold bytes32. rewrite length_take, length_app, length_replicate. lia.
Qed.

(** [create_round] once the oracle is loaded and the digest decoded: two
    transactions in a row, the second one only with a round manager. *)
Lemma create_round_run `{PyBytes}
    (w3 : web3) (dir : Z) (sig : string) (self : BlockchainInterface)
    (decoded : list Byte.byte) :
  "ai_oracle" ∈ contracts self ->
  bytes_fromhex (remove_0x sig) = Return decoded ->
  let id := timestamp_now w3 mod 1000000 in
  let submit := submitPrediction id dir (bytes32 decoded) in
  let create := createRound dir (bytes32 decoded) in
  let self1 :=
    {| contracts := contracts self;
       nonce := nonce self + Z.b2z (confirmed w3 (submit, nonce self)) |} in
  let self2 :=
    {| contracts := contracts self;
       nonce := nonce self1 + Z.b2z (confirmed w3 (create, nonce self1)) |} in
  create_round w3 dir sig self
  = if decide ("round_manager" ∈ contracts self)
    then
      (match transact w3 create (nonce self1) with
       | Return (status, tx_hash) =>
           if (status =? 1) && negb (String.eqb tx_hash "") then Some id else None
       | Raise _ => None
       end,
       self2, [(submit, nonce self); (create, nonce self1)])
    else (None, self1, [(submit, nonce self)]).
Proof.
  intros Horacle Hdecoded id submit create self1 self2.
  unfold create_round. rewrite decide_True by exact Horacle.
  rewrite Hdecoded. cbv zeta. rewrite signature_bytes32.
  fold id. unfold _submit_prediction. rewrite decide_True by exact Horacle.
  fold submit create.
  assert (Hsubmit : exists tx,
             _send_transaction w3 submit self = (tx, self1, [(submit, nonce self)])).
  { unfold _send_transaction, self1, confirmed. cbn [fst snd].
    destruct (transact w3 submit (nonce self)) as [[status tx_hash] | e].
    - destruct (status =? 1); eexists; cbn [Z.b2z]; [reflexivity |].
      rewrite Z.add_0_r. destruct self; reflexivity.
    - eexists. cbn [Z.b2z]. rewrite Z.add_0_r. destruct self; reflexivity. }
  destruct Hsubmit as [tx ->].
  change (contracts self1) with (contracts self).
  destruct (decide ("round_manager" ∈ contracts self)) as [Hmanager | Hmanager];
    [| reflexivity].
  unfold _send_transaction, self2, confirmed. cbn [fst snd].
  destruct (transact w3 create (nonce self1)) as [[status tx_hash] | failure].
  - destruct (status =? 1); cbn [andb Z.b2z].
    + destruct (String.eqb tx_hash ""); reflexivity.
    + rewrite Z.add_0_r. reflexivity.
  - cbn [Z.b2z]. rewrite Z.add_0_r. reflexivity.
Qed.

(** X21: once the oracle contract is loaded and the signature hash
    decodes, [create_round] asks for [submitPrediction] first and, when
    the round manager is loaded, for [createRound] next, and for nothing
    else. Both calls carry the direction it was given and the same 32
    bytes: the decoded hash cut to 32 bytes or filled with zero bytes,
    and the decoded hash itself when it has 32 bytes. The round
    identifier is the clock in seconds modulo 1000000, so below one
    million, and the only identifier that [create_round] returns. *)
Theorem create_round_requests `{PyBytes}
    (w3 : web3) (dir : Z) (sig : string) (self : BlockchainInterface)
    (decoded : list Byte.byte) :
  "ai_oracle" ∈ contracts self ->
  bytes_fromhex (remove_0x sig) = Return decoded ->
  let id := timestamp_now w3 mod 1000000 in
  (create_round w3 dir sig self).2.*1
  = submitPrediction id dir (bytes32 decoded)
    :: (if decide ("round_manager" ∈ contracts self)
        then [createRound dir (bytes32 decoded)] else [])
  /\ length (bytes32 decoded) = 32%nat
  /\ (length decoded = 32%nat -> bytes32 decoded = decoded)
  /\ 0 <= id < 1000000
  /\ ((create_round w3 dir sig self).1.1 = None
      \/ (create_round w3 dir sig self).1.1 = Some id).
Proof.
  intros Horacle Hdecoded id.
  rewrite (create_round_run w3 dir sig self decoded Horacle Hdecoded).
  cbv zeta. fold id.
  split; [destruct (decide _); reflexivity |].
  split; [apply bytes32_length |].
  split.
  { intros Hlength. rewrite <- signature_bytes32.
    apply Nat.eqb_eq in Hlength. rewrite Hlength. reflexivity. }
  split; [apply Z.mod_pos_bound; lia |].
  destruct (decide _) as [Hmanager | Hmanager]; [| left; reflexivity].
  cbn [fst]. destruct (transact w3 _ _) as [[status tx_hash] | e];
    [| left; reflexivity].
  destruct (_ && _); [right | left]; reflexivity.
Qed.

Lemma create_round_requests_witness :
  (@create_round sample_bytes sample_web3 1 "0xabcd" both_contracts).2.*1
  = [submitPrediction 67200 1 (bytes32 [Byte.xab; Byte.xcd]);
     createRound 1 (bytes32 [Byte.xab; Byte.xcd])]
  /\ length (bytes32 [Byte.xab; Byte.xcd]) = 32%nat.
Proof.
  destruct (@create_round_requests sample_bytes sample_web3 1 "0xabcd" both_contracts
              [Byte.xab; Byte.xcd])
    as (Hcalls & Hlength & _).
  - vm_compute. reflexivity.
  - reflexivity.
  - split; [exact Hcalls | exact Hlength].
Defined.

(** X22: a prediction that the oracle did not accept does not stop the
    round. When both contracts are loaded, the signature hash decodes,
    [submitPrediction] is not confirmed (the transaction fails or is
    reverted) and [createRound], sent under the same nonce, is confirmed
    with a transaction hash, [create_round] returns the round identifier
    and the nonce has grown by one. *)
Theorem round_created_without_submission `{PyBytes}
    (w3 : web3) (dir : Z) (sig : string) (self : BlockchainInterface)
    (decoded : list Byte.byte) (tx_hash : string) :
  "ai_oracle" ∈ contracts self ->
  "round_manager" ∈ contracts self ->
  bytes_fromhex (remove_0x sig) = Return decoded ->
  let id := timestamp_now w3 mod 1000000 in
  confirmed w3 (submitPrediction id dir (bytes32 decoded), nonce self) = false ->
  transact w3 (createRound dir (bytes32 decoded)) (nonce self) = Return (1, tx_hash) ->
  tx_hash <> "" ->
  create_round w3 dir sig self
  = (Some id,
     {| contracts := contracts self; nonce := nonce self + 1 |},
     [(submitPrediction id dir (bytes32 decoded), nonce self);
      (createRound dir (bytes32 decoded), nonce self)]).
Proof.
  intros Horacle Hmanager Hdecoded id Hsubmit Hcreate Hhash.
  rewrite (create_round_run w3 dir sig self decoded Horacle Hdecoded).
  cbv zeta. fold id. rewrite decide_True by exact Hmanager.
  rewrite Hsubmit. cbn [Z.b2z nonce]. rewrite Z.add_0_r.
  unfold confirmed. cbn [fst snd]. rewrite Hcreate.
  apply String.eqb_neq in Hhash. rewrite Hhash. reflexivity.
Qed.

Lemma round_created_without_submission_witness :
  (@create_round sample_bytes sample_web3 1 "0xabcd" both_contracts).1.1 = Some 67200
  /\ nonce (@create_round sample_bytes sample_web3 1 "0xabcd" both_contracts).1.2 = 6.
Proof.
  rewrite (@round_created_without_submission sample_bytes sample_web3 1 "0xabcd"
             both_contracts [Byte.xab; Byte.xcd] "0xconfirmed").
  - split; reflexivity.
  - vm_compute. reflexivity.
  - vm_compute. reflexivity.
  - reflexivity.
  - reflexivity.
  - reflexivity.
  - discriminate.
Defined.

(** X23: [create_round] never raises and keeps the contracts. It makes
    at most two calls, and the nonce grows by the number of calls that
    the node confirmed, so by two at most; a call that is not confirmed
    leaves the nonce to the next call. A round identifier is returned
    only when the last call, [createRound], was confirmed, so only with
    a nonce that has grown. *)
Theorem create_round_nonce `{PyBytes}
    (w3 : web3) (dir : Z) (sig : string) (self : BlockchainInterface) :
  let '(round, after, calls) := create_round w3 dir sig self in
  contracts after = contracts self
  /\ (length calls <= 2)%nat
  /\ nonce after
     = nonce self + Z.of_nat (length (filter (fun c => confirmed w3 c = true) calls))
  /\ (is_Some round -> nonce self < nonce after).
Proof.
  assert (Hidle : contracts self = contracts self
                  /\ (length (@nil (contract_call * Z)) <= 2)%nat
                  /\ nonce self
                     = nonce self
                       + Z.of_nat (length (filter (fun c => confirmed w3 c = true) []))
                  /\ (is_Some (@None Z) -> nonce self < nonce self)).
  { repeat split; [cbn; lia | cbn; lia | intros [? [=]]]. }
  destruct (decide ("ai_oracle" ∈ contracts self)) as [Horacle | Horacle];
    [| unfold create_round; rewrite decide_False by exact Horacle; exact Hidle].
  destruct (bytes_fromhex (remove_0x sig)) as [decoded | e] eqn:Hdecoded;
    [| unfold create_round; rewrite decide_True, Hdecoded by exact Horacle;
       exact Hidle].
  rewrite (create_round_run w3 dir sig self decoded Horacle Hdecoded).
  cbv zeta.
  set (id := timestamp_now w3 mod 1000000).
  set (submit := submitPrediction id dir (bytes32 decoded)).
  set (create := createRound dir (bytes32 decoded)).
  destruct (decide ("round_manager" ∈ contracts self)) as [Hmanager | Hmanager].
  - cbn [nonce contracts].
    set (n := nonce self + Z.b2z (confirmed w3 (submit, nonce self))).
    split; [reflexivity |]. split; [cbn; lia |].
    split.
    + rewrite !filter_cons, filter_nil.
      destruct (confirmed w3 (submit, nonce self)) eqn:Hsubmit;
        destruct (confirmed w3 (create, n)) eqn:Hcreate;
        repeat case_decide; try congruence; subst n; cbn; lia.
    + intros [round Hround].
      unfold confirmed. cbn [fst snd].
      destruct (transact w3 create n) as [[status tx_hash] | e]; [| discriminate].
      destruct (status =? 1); [| discriminate].
      subst n. destruct (confirmed w3 (submit, nonce self)); cbn; lia.
  - cbn [nonce contracts].
    split; [reflexivity |]. split; [cbn; lia |].
    split; [| intros [? [=]]].
    rewrite filter_cons, filter_nil.
    destruct (confirmed w3 (submit, nonce self)) eqn:Hsubmit;
      repeat case_decide; try congruence; cbn; lia.
Qed.

(** ** Loading the contracts *)

(** X24: [_load_contracts] keeps the nonce and the contracts it finds.
    The oracle contract is there afterwards exactly when it was there
    before, or its address is configured and accepted and the address of
    the round manager, if one is configured, was accepted before it.
    Without it [create_round] answers [None] without a single call: on a
    new interface, a round manager address that the node rejects also
    switches off the submission of predictions. *)
Theorem load_contracts_oracle `{PyBytes}
    (chain : ChainConfig) (w3 : web3) (self : BlockchainInterface)
    (dir : Z) (sig : string) :
  let loaded := _load_contracts chain w3 self in
  nonce loaded = nonce self
  /\ contracts self ⊆ contracts loaded
  /\ ("ai_oracle" ∈ contracts loaded
      <-> "ai_oracle" ∈ contracts self
          \/ (AI_ORACLE_ADAPTER_ADDRESS chain <> ""
              /\ eth_contract w3 (AI_ORACLE_ADAPTER_ADDRESS chain) = Return tt
              /\ (ROUND_MANAGER_ADDRESS chain = ""
                  \/ eth_contract w3 (ROUND_MANAGER_ADDRESS chain) = Return tt)))
  /\ ("ai_oracle" ∉ contracts loaded ->
      create_round w3 dir sig loaded = (None, loaded, [])).
Proof.
  intros loaded.
  assert (Hloaded :
            nonce loaded = nonce self
            /\ contracts self ⊆ contracts loaded
            /\ ("ai_oracle" ∈ contracts loaded
                <-> "ai_oracle" ∈ contracts self
                    \/ (AI_ORACLE_ADAPTER_ADDRESS chain <> ""
                        /\ eth_contract w3 (AI_ORACLE_ADAPTER_ADDRESS chain) = Return tt
                        /\ (ROUND_MANAGER_ADDRESS chain = ""
                            \/ eth_contract w3 (ROUND_MANAGER_ADDRESS chain)
                               = Return tt)))).
  { subst loaded. unfold _load_contracts, and_then.
    destruct (String.eqb_spec (ROUND_MANAGER_ADDRESS chain) "") as [Hmanager | Hmanager];
      [| destruct (eth_contract w3 (ROUND_MANAGER_ADDRESS chain))
           as [[] | failure] eqn:Hround];
      (destruct (String.eqb_spec (AI_ORACLE_ADAPTER_ADDRESS chain) "")
         as [Horacle | Horacle];
       [| destruct (eth_contract w3 (AI_ORACLE_ADAPTER_ADDRESS chain))
            as [[] | failure'] eqn:Hadapter]);
      cbn [contracts nonce];
      (split; [reflexivity |]);
      (split; [set_unfold; naive_solver |]);
      (split;
       [ rewrite ?elem_of_union, ?elem_of_singleton; intros Hin;
         repeat match goal with
                | Hcase : _ \/ _ |- _ => destruct Hcase as [Hcase | Hcase]
                end;
         first [ discriminate
               | left; assumption
               | right; repeat split; first [assumption | by left | by right] ]
       | rewrite ?elem_of_union, ?elem_of_singleton;
         intros [Hin | (Hconfigured & Haccepted & [Hempty | Hbefore])];
         first [congruence | tauto] ]). }
  destruct Hloaded as (Hnonce & Hkept & Horacle).
  split; [exact Hnonce |]. split; [exact Hkept |]. split; [exact Horacle |].
  intros Hmissing. unfold create_round.
  rewrite decide_False by exact Hmissing. reflexivity.
Qed.

(** ** The health of the chain *)

(** X25: [BlockchainInterface.health_check] never raises, and answers
    [True] exactly when the node is connected, the latest block is there
    and the balance of the account was read and is not below 0.01. A
    balance that could not be read counts as 0.0, so as too low. *)
Theorem chain_health_check_verdict (w3 : web3) :
  (BlockchainInterface_health_check w3 = true
   <-> is_connected w3 = Return true
       /\ get_block_latest w3 = Return true
       /\ exists balance,
            get_balance w3 = Return balance /\ float_lt balance 0.01 = false)
  /\ (is_raise (get_balance w3) = true -> BlockchainInterface_health_check w3 = false).
Proof.
  unfold BlockchainInterface_health_check, get_account_balance.
  split.
  - split.
    + destruct (is_connected w3) as [[|] | e]; try discriminate.
      destruct (get_block_latest w3) as [[|] | e]; try discriminate.
      destruct (get_balance w3) as [balance | e].
      * intros Hbalance. apply negb_true_iff in Hbalance.
        repeat split. exists balance. split; [reflexivity | exact Hbalance].
      * vm_compute. discriminate.
    + intros (-> & -> & balance & -> & Hbalance).
      rewrite Hbalance. reflexivity.
  - destruct (get_balance w3) as [balance | e]; [discriminate |].
    intros _. destruct (is_connected w3) as [[|] | e']; try reflexivity.
    destruct (get_block_latest w3) as [[|] | e']; reflexivity.
Qed.

(** ** The prediction cycle *)

(** X26: [run_prediction_cycle] never reaches the chain. It leaves the
    engine as [generate_prediction] left it and makes the calls of
    [generate_prediction], but it makes no call to a contract and leaves
    the interface to the chain, nonce included, as it was: reading the
    direction of the prediction by subscript raises [TypeError] before
    [create_round] is called, and the handler of the cycle absorbs it.
    So a prediction that the engine returned is counted and is the last
    entry of the history, and no round is created for it. *)
Theorem cycle_never_creates_round `{PyRuntime} `{PyBytes}
    (config : Config) (env : collaborators) (w3 : web3) (self : PredixAI) :
  let outcome := generate_prediction config env (prediction_engine self) in
  run_prediction_cycle config env w3 self
  = ({| prediction_engine := state_after outcome;
        blockchain_interface := blockchain_interface self |},
     calls_of outcome, [])
  /\ (forall r,
        returned outcome = Return (Some r) ->
        total_predictions (state_after outcome)
        = total_predictions (prediction_engine self) + 1
        /\ exists kept, prediction_history (state_after outcome) = kept ++ [r]).
Proof.
  intros outcome. split.
  - unfold run_prediction_cycle. fold outcome.
    destruct outcome as [[[[r |] | e] engine] calls]; reflexivity.
  - intros r. subst outcome.
    destruct (generate_prediction_cases config env (prediction_engine self))
      as [(calls & ->) | (r' & calls & -> & _)]; [discriminate |].
    unfold returned, state_after. cbn [fst snd]. intros [= ->].
    split; [reflexivity | apply record_prediction_last].
Qed.

(** ** The endpoints of the server *)

Lemma slice_from_last_entry {A : Type} (kept : list A) (a : A) :
  slice_from (Z.opp 1) (kept ++ [a]) = [a].
Proof.
  rewrite slice_from_last by lia. rewrite length_app. cbn [length].
  replace (length kept + 1 - Z.to_nat 1)%nat with (length kept) by lia.
  apply drop_app_length.
Qed.

(** X27: [GET /predictions/latest] never answers 404. With an empty
    history its body raises the 404, which its own handler catches and
    raises again as a 500 whose detail is the display of the 404; with a
    history that is not empty it answers the display of the last entry.
    It makes no call and leaves the engine as it was. *)
Theorem latest_endpoint_never_404 `{ApiRuntime} (self : PredictionEngine) :
  api_get_latest_prediction self
  = (Return match last (prediction_history self) with
            | Some r => OK (display_of r)
            | None => HTTPException 500 (str_HTTPException 404 "No predictions available")
            end,
     self, []).
Proof.
  unfold api_get_latest_prediction, except_500, bind at 1.
  rewrite get_recent_predictions_run.
  destruct (last (prediction_history self)) as [r |] eqn:Hlast.
  - apply last_Some in Hlast as [kept ->].
    rewrite slice_from_last_entry. reflexivity.
  - apply last_None in Hlast as ->. reflexivity.
Qed.

(** X28: to a request with a bearer token, [POST /predictions/generate]
    answers 401 when the token is wrong, without running the engine.
    With the right token it runs [generate_prediction] once: a
    prediction is answered with its fields
    and its whole signature hash; no prediction (emergency stop, no
    features, low confidence or any failure) is answered by a 500 whose
    detail is the display of the 400 that the body raised. It never
    raises anything else: its status is 200, 401 or 500, never 400. *)
Theorem generate_endpoint_statuses `{PyRuntime} `{ApiRuntime}
    (config : Config) (key : string) (env : collaborators)
    (credentials : string) (self : PredictionEngine) :
  let outcome := generate_prediction config env self in
  let answer := api_generate_prediction config key env credentials self in
  (credentials <> key ->
   answer = (Return (HTTPException 401 "Invalid token"), self, []))
  /\ (credentials = key ->
      returned outcome = Return None ->
      answer
      = (Return (HTTPException 500
                   (str_HTTPException 400 "Failed to generate prediction")),
         self, calls_of outcome))
  /\ (credentials = key ->
      forall r,
        returned outcome = Return (Some r) ->
        answer
        = (Return (OK {| display_direction := if direction r =? 0 then "UP" else "DOWN";
                         display_confidence := confidence r;
                         display_timestamp := isoformat (timestamp r);
                         display_signature_hash := signature_hash r;
                         display_metadata := metadata r |}),
           state_after outcome, calls_of outcome))
  /\ ((exists content, returned answer = Return (OK content))
      \/ (exists detail,
            returned answer = Return (HTTPException 401 detail)
            \/ returned answer = Return (HTTPException 500 detail))).
Proof.
  intros outcome answer. subst outcome answer.
  unfold api_generate_prediction, verify_token.
  destruct (String.eqb_spec credentials key) as [Htoken | Htoken]; cbn [negb].
  - unfold except_500, bind, ret.
    destruct (generate_prediction_cases config env self)
      as [(calls & ->) | (r & calls & -> & _)];
      unfold returned, state_after, calls_of; cbn [fst snd].
    + split; [intros Hwrong; contradiction |].
      split; [intros _ _; rewrite app_nil_r; reflexivity |].
      split; [intros _ r; discriminate |].
      right. eexists. right. reflexivity.
    + split; [intros Hwrong; contradiction |].
      split; [intros _; discriminate |].
      split; [intros _ r' [= <-]; rewrite app_nil_r; reflexivity |].
      left. eexists. reflexivity.
  - split; [intros _; reflexivity |].
    split; [intros Hright; contradiction |].
    split; [intros Hright; contradiction |].
    right. eexists. left. reflexivity.
Qed.

(** X29: the emergency stop through the server. With the right token,
    [POST /emergency/stop] sets the stop flag and nothing else; from
    then on [POST /predictions/generate] answers 500 without a single
    call to a collaborator and leaves the engine as it is; and
    [POST /emergency/reset] clears the flag and also sets the count of
    consecutive losses to zero. *)
Theorem emergency_endpoints `{PyRuntime} `{ApiRuntime}
    (config : Config) (key : string) (env : collaborators) (self : PredictionEngine) :
  let stopped := set_emergency_stop true self in
  api_emergency_stop key key self
  = (Return (OK "Emergency stop activated"), stopped, [])
  /\ api_generate_prediction config key env key stopped
     = (Return (HTTPException 500
                  (str_HTTPException 400 "Failed to generate prediction")),
        stopped, [])
  /\ api_reset_emergency_stop key key stopped
     = (Return (OK "Emergency stop reset"),
        set_consecutive_losses 0 (set_emergency_stop false self), []).
Proof.
  intros stopped.
  unfold api_emergency_stop, api_generate_prediction, api_reset_emergency_stop,
    verify_token.
  rewrite String.eqb_refl. cbn [negb].
  repeat split.
Qed.

(** What [manual_override] returns, when it returns a prediction. *)
Lemma manual_override_returned `{PyRuntime}
    (config : Config) (env : collaborators) (dir : Z) (conf : float)
    (self : PredictionEngine) (r : PredictionResult) :
  returned (manual_override config env dir conf self) = Return (Some r) ->
  direction r = dir
  /\ confidence r = conf
  /\ metadata r !! "manual_override" = Some (PyBool true).
Proof.
  unfold manual_override, try_except, bind at 1, lift.
  destruct (np_random_random env _) as [dummy_features | e]; [| discriminate].
  destruct (create_prediction_result_run env dir conf dummy_features self)
    as (res & Hcreate & Hres).
  unfold bind, ret. rewrite Hcreate.
  destruct res as [r' | e]; [| discriminate].
  destruct (Hres r' eq_refl) as (Hdir & Hconf & _).
  unfold returned. cbn. intros [= <-].
  repeat split; [exact Hdir | exact Hconf | apply lookup_insert_eq].
Qed.

(** X30: [POST /predictions/manual] with the right token reads every
    direction whose capitals are not [UP] as direction 1, and answers
    with the capitals of the text it was sent, whatever they are. When
    it answers a prediction, that prediction has the confidence of the
    request, is marked as a manual override, and was built and signed
    for direction 0 or 1 as said; the engine is left as it was, so the
    prediction is neither counted nor kept in the history. *)
Theorem manual_endpoint_direction `{PyRuntime} `{ApiRuntime}
    (config : Config) (key : string) (env : collaborators)
    (request : ManualPredictionRequest) (self : PredictionEngine)
    (content : prediction_display) :
  let answer := api_manual_prediction config key env request key self in
  returned answer = Return (OK content) ->
  let dir := if String.eqb (str_upper (request_direction request)) "UP" then 0 else 1 in
  state_after answer = self
  /\ display_direction content = str_upper (request_direction request)
  /\ display_confidence content = request_confidence request
  /\ display_metadata content !! "manual_override" = Some (PyBool true)
  /\ exists r,
       manual_override config env dir (request_confidence request) self
       = (Return (Some r), self, calls_of answer)
       /\ direction r = dir
       /\ display_signature_hash content = signature_hash r
       /\ display_timestamp content = isoformat (timestamp r).
Proof.
  intros answer Hanswer dir. subst answer.
  unfold api_manual_prediction, verify_token in *.
  rewrite String.eqb_refl in *. cbn [negb] in *.
  fold dir in Hanswer |- *.
  pose proof (manual_override_state config env dir (request_confidence request) self)
    as Hstate.
  pose proof (manual_override_returned config env dir (request_confidence request) self)
    as Hreturned.
  unfold except_500, bind in *.
  destruct (manual_override config env dir (request_confidence request) self)
    as [[[[r |] | e] after] calls] eqn:Hrun;
    unfold returned, state_after, calls_of, ret in *; cbn [fst snd] in *;
    try discriminate.
  injection Hanswer as <-. subst after.
  destruct (Hreturned r eq_refl) as (Hdir & Hconf & Hflag).
  cbn [display_direction display_confidence display_metadata
       display_signature_hash display_timestamp].
  rewrite app_nil_r.
  repeat split; try assumption.
  exists r. repeat split. exact Hdir.
Qed.

Lemma manual_endpoint_direction_witness :
  exists content,
    returned (@api_manual_prediction sample_runtime sample_api_runtime sample_config
                "secret" (sample_env 0.55 signer_up)
                {| request_direction := "sideways"; request_confidence := 0.9 |}
                "secret" PredictionEngine_init)
    = Return (OK content)
    /\ display_direction content = "SIDEWAYS"
    /\ exists r,
         display_signature_hash content = signature_hash r
         /\ direction r = 1.
Proof.
  eexists. split; [vm_compute; reflexivity |].
  destruct (@manual_endpoint_direction sample_runtime sample_api_runtime sample_config
              "secret" (sample_env 0.55 signer_up)
              {| request_direction := "sideways"; request_confidence := 0.9 |}
              PredictionEngine_init _ eq_refl)
    as (_ & Hdirection & _ & _ & r & _ & Hdir & Hsignature & _).
  split; [exact Hdirection |].
  exists r. split; [exact Hsignature | exact Hdir].
Defined.
